(** * drawboxtools-helper: a model of [image_processing_drawbox_helper.py]

    The script logs in to a prediction service, uploads every image of an
    input folder, draws the returned boxes and writes a LabelMe annotation
    next to a preview and a copy of the original.

    The script is embedded shallowly: the values decoded from JSON are an
    inductive type with the Python operators the script applies to them,
    the process state (file system, the module-level [class_colors]
    dictionary, standard output, the number of requests sent) is threaded
    through a state-and-exception monad, and everything the script obtains
    from outside the interpreter (the HTTP service, Pillow's decoder,
    drawing and encoder, the JSON serialiser, the font loader) is a field
    of the record [Env]. *)

From Stdlib Require Import ZArith NArith List Lia Bool.
From Stdlib Require Import PrimFloat FloatOps FloatAxioms SpecFloat.
From Stdlib.Strings Require Import Byte Ascii String.
From stdpp Require Import gmap strings list.

Local Open Scope Z_scope.

(** ** Values decoded from JSON *)

(** What [resp.json()] returns: [None], [bool], [int], [float], [str],
    [list] and [dict] (as its items, in order). *)
#[warnings="-register-all"]
Inductive json : Type :=
| JNull
| JBool (b : bool)
| JInt (n : Z)
| JFloat (f : float)
| JStr (s : string)
| JList (l : list json)
| JDict (d : list (string * json)).

(** The exceptions that can travel through the script. *)
Inductive exn : Type :=
| KeyError (key : string)
| IndexError
| TypeError
| AttributeError
| ValueError
| OverflowError
| JSONDecodeError
| FileNotFoundError
| IsADirectoryError
| NotADirectoryError
| FileExistsError
| SameFileError
| OSError
| UnidentifiedImageError
| RequestException.

Definition is_FileNotFoundError (e : exn) : bool :=
  match e with FileNotFoundError => true | _ => false end.

(** [except IOError]: [IOError] is [OSError], which the file system errors
    and Pillow's [UnidentifiedImageError] subclass. *)
Definition is_IOError (e : exn) : bool :=
  match e with
  | FileNotFoundError | IsADirectoryError | NotADirectoryError
  | FileExistsError | SameFileError | OSError | UnidentifiedImageError => true
  | _ => false
  end.

(** ** Python operators on decoded values *)

Module py.

Fixpoint dict_lookup (d : list (string * json)) (k : string) : option json :=
  match d with
  | [] => None
  | (k', v) :: d' => if String.eqb k' k then Some v else dict_lookup d' k
  end.

(** [v[k]] for a string [k]: only a [dict] can be subscripted by a
    string. *)
Definition getitem (v : json) (k : string) : exn + json :=
  match v with
  | JDict d => match dict_lookup d k with
               | Some x => inr x
               | None => inl (KeyError k)
               end
  | _ => inl TypeError
  end.

(** [v.get(k, default)]: only a [dict] has the method. *)
Definition get (v : json) (k : string) (default : json) : exn + json :=
  match v with
  | JDict d => inr (match dict_lookup d k with
                    | Some x => x
                    | None => default
                    end)
  | _ => inl AttributeError
  end.

(** [len(v)]. *)
Definition len (v : json) : exn + Z :=
  match v with
  | JList l => inr (Z.of_nat (List.length l))
  | JStr s => inr (Z.of_nat (String.length s))
  | JDict d => inr (Z.of_nat (List.length d))
  | _ => inl TypeError
  end.

Fixpoint chars (s : string) : list json :=
  match s with
  | EmptyString => []
  | String c r => JStr (String c EmptyString) :: chars r
  end.

(** The items [for pred in v] visits. *)
Definition iter (v : json) : exn + list json :=
  match v with
  | JList l => inr l
  | JStr s => inr (chars s)
  | JDict d => inr (map (fun kv => JStr (fst kv)) d)
  | _ => inl TypeError
  end.

(** [not v] is [negb (truthy v)]. *)
Definition truthy (v : json) : bool :=
  match v with
  | JNull => false
  | JBool b => b
  | JInt n => negb (n =? 0)
  | JFloat f => negb (PrimFloat.eqb f 0%float)
  | JStr s => negb (String.eqb s "")
  | JList l => match l with [] => false | _ => true end
  | JDict d => match d with [] => false | _ => true end
  end.

(** Numbers: [bool] is a subclass of [int]. *)
Inductive num : Type := NInt (n : Z) | NFloat (f : float).

Definition as_num (v : json) : option num :=
  match v with
  | JBool b => Some (NInt (Z.b2z b))
  | JInt n => Some (NInt n)
  | JFloat f => Some (NFloat f)
  | _ => None
  end.

(** [float(n)] for an [int]: correctly rounded, [OverflowError] when
    the result is not finite. *)
Definition float_of_int (n : Z) : exn + float :=
  let f := SF2Prim (binary_normalize prec emax n 0 false) in
  if PrimFloat.is_infinity f then inl OverflowError else inr f.

Definition arith (iop : Z -> Z -> Z) (fop : float -> float -> float)
    (a b : num) : exn + json :=
  match a, b with
  | NInt x, NInt y => inr (JInt (iop x y))
  | NFloat x, NFloat y => inr (JFloat (fop x y))
  | NInt x, NFloat y =>
      match float_of_int x with
      | inl e => inl e
      | inr x' => inr (JFloat (fop x' y))
      end
  | NFloat x, NInt y =>
      match float_of_int y with
      | inl e => inl e
      | inr y' => inr (JFloat (fop x y'))
      end
  end.

(** [a + b]. *)
Definition add (a b : json) : exn + json :=
  match as_num a, as_num b with
  | Some x, Some y => arith Z.add PrimFloat.add x y
  | _, _ =>
      match a, b with
      | JStr s, JStr t => inr (JStr (s +:+ t))
      | JList l, JList m => inr (JList (l ++ m))
      | _, _ => inl TypeError
      end
  end.

(** [a - b]. *)
Definition sub (a b : json) : exn + json :=
  match as_num a, as_num b with
  | Some x, Some y => arith Z.sub PrimFloat.sub x y
  | _, _ => inl TypeError
  end.

(** Dictionary keys.  Python compares keys with [==] after hashing, and
    equal numbers hash alike, so [True], [1] and [1.0] are one key: an
    integral float is stored as its integer.  [list] and [dict] are not
    hashable. *)
Inductive key : Type :=
| KNone
| KInt (n : Z)
| KFloat (f : float)
| KStr (s : string).

Definition integral (f : float) : option Z :=
  match Prim2SF f with
  | S754_zero _ => Some 0
  | S754_finite s m e =>
      let v := if (0 <=? e) then Some (Z.pos m * 2 ^ e)
               else if (Z.pos m mod 2 ^ (- e) =? 0)
                    then Some (Z.pos m / 2 ^ (- e)) else None in
      if s then option_map Z.opp v else v
  | _ => None
  end.

Definition hash (v : json) : exn + key :=
  match v with
  | JNull => inr KNone
  | JBool b => inr (KInt (Z.b2z b))
  | JInt n => inr (KInt n)
  | JFloat f => inr (match integral f with Some n => KInt n | None => KFloat f end)
  | JStr s => inr (KStr s)
  | JList _ | JDict _ => inl TypeError
  end.

Definition key_eqb (a b : key) : bool :=
  match a, b with
  | KNone, KNone => true
  | KInt x, KInt y => x =? y
  | KFloat f, KFloat g => PrimFloat.Leibniz.eqb f g
  | KStr s, KStr t => String.eqb s t
  | _, _ => false
  end.

End py.

(** ** [os.path] (posixpath) *)

Module os_path.

Definition sep : ascii := "/"%char.
Definition extsep : ascii := "."%char.

(** [s.rfind(c)], [None] for [-1]. *)
Fixpoint rfind (c : ascii) (s : string) : option nat :=
  match s with
  | EmptyString => None
  | String a r =>
      match rfind c r with
      | Some i => Some (S i)
      | None => if Ascii.eqb a c then Some O else None
      end
  end.

(** [s[:n]] and [s[n:]]. *)
Fixpoint take (n : nat) (s : string) : string :=
  match n, s with
  | S n', String a r => String a (take n' r)
  | _, _ => EmptyString
  end.

Fixpoint drop (n : nat) (s : string) : string :=
  match n, s with
  | S n', String _ r => drop n' r
  | _, _ => s
  end.

Fixpoint all_dots (s : string) : bool :=
  match s with
  | EmptyString => true
  | String a r => Ascii.eqb a extsep && all_dots r
  end.

Definition startswith_sep (s : string) : bool :=
  match s with
  | String a _ => Ascii.eqb a sep
  | EmptyString => false
  end.

Fixpoint endswith_sep (s : string) : bool :=
  match s with
  | EmptyString => false
  | String a EmptyString => Ascii.eqb a sep
  | String _ r => endswith_sep r
  end.

(** [i = p.rfind('/') + 1; return p[i:]] *)
Definition basename (p : string) : string :=
  match rfind sep p with
  | Some i => drop (S i) p
  | None => p
  end.

(** [genericpath._splitext]: split at the last dot of the last
    component unless only dots precede it there. *)
Definition splitext (p : string) : string * string :=
  let filenameIndex := match rfind sep p with Some i => S i | None => O end in
  match rfind extsep p with
  | Some dotIndex =>
      if (filenameIndex <=? dotIndex)%nat
         && negb (all_dots (take (dotIndex - filenameIndex) (drop filenameIndex p)))
      then (take dotIndex p, drop dotIndex p)
      else (p, "")
  | None => (p, "")
  end.

(** [os.path.join(a, b)] *)
Definition join (a b : string) : string :=
  if startswith_sep b then b
  else if String.eqb a "" || endswith_sep a then a +:+ b
  else a +:+ "/" +:+ b.

End os_path.

(** ** [base64] *)

Module base64.

Definition alphabet : string :=
  "ABCDEFGHIJKLMNOPQRSTUVWXYZabcdefghijklmnopqrstuvwxyz0123456789+/".

Definition pad : ascii := "="%char.

Definition char_of (i : N) : ascii :=
  match String.get (N.to_nat i) alphabet with
  | Some c => c
  | None => pad
  end.

Fixpoint index_from (s : string) (i : N) (c : ascii) : option N :=
  match s with
  | EmptyString => None
  | String a r => if Ascii.eqb a c then Some i else index_from r (N.succ i) c
  end.

Definition index_of (c : ascii) : option N := index_from alphabet 0%N c.

(** The four sextets of three octets. *)
Definition s0 (a : N) : N := (a / 4)%N.
Definition s1 (a b : N) : N := ((a mod 4) * 16 + b / 16)%N.
Definition s2 (b c : N) : N := ((b mod 16) * 4 + c / 64)%N.
Definition s3 (c : N) : N := (c mod 64)%N.

(** [base64.b64encode(data).decode('utf-8')] *)
Fixpoint b64encode (data : list byte) : string :=
  match data with
  | [] => ""
  | [a] =>
      let a := Byte.to_N a in
      String (char_of (s0 a)) (String (char_of (s1 a 0))
        (String pad (String pad "")))
  | [a; b] =>
      let a := Byte.to_N a in
      let b := Byte.to_N b in
      String (char_of (s0 a)) (String (char_of (s1 a b))
        (String (char_of (s2 b 0)) (String pad "")))
  | a :: b :: c :: rest =>
      let a := Byte.to_N a in
      let b := Byte.to_N b in
      let c := Byte.to_N c in
      String (char_of (s0 a)) (String (char_of (s1 a b))
        (String (char_of (s2 b c)) (String (char_of (s3 c))
          (b64encode rest))))
  end.

(** The octets of a group of sextets. *)
Definition o0 (i j : N) : option byte := Byte.of_N (i * 4 + j / 16)%N.
Definition o1 (j k : N) : option byte := Byte.of_N ((j mod 16) * 16 + k / 4)%N.
Definition o2 (k l : N) : option byte := Byte.of_N ((k mod 4) * 64 + l)%N.

(** [base64.b64decode] on padded text of the standard alphabet: groups
    of four characters, padding only in the last group. *)
Fixpoint b64decode (s : string) : option (list byte) :=
  match s with
  | EmptyString => Some []
  | String c0 (String c1 (String c2 (String c3 rest))) =>
      i ← index_of c0;
      j ← index_of c1;
      x ← o0 i j;
      if Ascii.eqb c2 pad then
        if Ascii.eqb c3 pad && String.eqb rest "" then Some [x] else None
      else
        k ← index_of c2;
        y ← o1 j k;
        if Ascii.eqb c3 pad then
          if String.eqb rest "" then Some [x; y] else None
        else
          l ← index_of c3;
          z ← o2 k l;
          tl ← b64decode rest;
          Some (x :: y :: z :: tl)
  | _ => None
  end.

End base64.

(** ** The process state and the outside world *)

Definition color : Type := Z * Z * Z.

(** A path names a file with its bytes or a directory with the names
    [os.listdir] returns for it, in the order it returns them. *)
Inductive node : Type :=
| File (data : list byte)
| Dir (entries : list string).

Inductive Font : Type :=
| TrueTypeFont (path : string) (size : Z)
| DefaultFont.

(** The text [f"{class_name}: {confidence:.2f}"], kept as the two values
    it renders. *)
Inductive label : Type := LabelText (class_name confidence : json).

(** The calls made on [ImageDraw.Draw(image)]. *)
Inductive draw_op : Type :=
| Rectangle (p0 p1 : json * json) (outline : color) (width : Z)
| Text (xy : json * json) (text : label) (font : Font) (fill : color).

(** A decoded image: the bytes it was decoded from, its size and the
    drawing done on it since, oldest call first. *)
Record Image : Type := mkImage {
  im_source : list byte;
  im_size : Z * Z;
  im_drawn : list draw_op
}.

(** The header value [f"Bearer {access_token}"], kept as the token. *)
Inductive header : Type := Bearer (access_token : json).

Inductive request : Type :=
| PostJson (url : string) (body : json)
| PostFiles (url : string) (headers : list (string * header))
    (field filename content_type : string) (content : list byte).

(** A [requests.Response]: [body] is what [resp.json()] returns, [None]
    when the body is not JSON. *)
Record Response : Type := mkResponse {
  status_code : Z;
  text : string;
  body : option json
}.

(** The lines the script prints, one constructor per [print]. *)
Inductive line : Type :=
| PrintLoggingIn
| PrintLoginFailed (resp_text : string)
| PrintTokenNotFound
| PrintLoginSuccessful
| PrintFontWarning
| PrintNoInputFolder (folder : string)
| PrintNoImages (folder : string)
| PrintProcessing (image_path : string)
| PrintImageNotFound (image_path : string)
| PrintPredictionFailed (image_path resp_text : string)
| PrintReceived (n : Z) (name : string)
| PrintImageInfo (image_info : json)
| PrintSavedPreview (path : string)
| PrintSavedJson (path : string)
| PrintCopied (path : string).

Record World : Type := mkWorld {
  fs : gmap string node;
  class_colors : list (py.key * color);
  stdout : list line;
  requests_sent : nat
}.

(** What the interpreter does not decide: the [n]-th request's answer,
    Pillow and the serialiser. *)
Record Env : Type := mkEnv {
  http : nat -> request -> exn + Response;
  (** [Image.open] and [ImageDraw.Draw]: the size, or the error raised *)
  pil_decode : list byte -> exn + (Z * Z);
  (** the error a drawing call raises on this image, if any *)
  pil_draw : Image -> draw_op -> option exn;
  (** the JPEG bytes [image.save] writes, or the error raised *)
  pil_encode : Image -> exn + list byte;
  (** the text [json.dump(doc, jf, indent=4)] writes *)
  json_dump : json -> list byte;
  (** whether [ImageFont.truetype] can load the font *)
  truetype : string -> Z -> bool
}.

(** ** State and exceptions *)

Inductive outcome (A : Type) : Type :=
| Ok (a : A)
| Raise (e : exn).
Arguments Ok {A} a.
Arguments Raise {A} e.

Definition M (A : Type) : Type := World -> outcome A * World.

Definition ret {A} (a : A) : M A := fun w => (Ok a, w).

Definition raise {A} (e : exn) : M A := fun w => (Raise e, w).

Definition bind {A B} (m : M A) (k : A -> M B) : M B :=
  fun w =>
    match m w with
    | (Ok a, w') => k a w'
    | (Raise e, w') => (Raise e, w')
    end.

Declare Scope py_scope.
Delimit Scope py_scope with py.
Notation "x <- m ;; k" := (bind m (fun x => k))
  (at level 100, m at next level, k at level 200, only parsing) : py_scope.
Notation "m ;; k" := (bind m (fun _ => k))
  (at level 100, k at level 200, only parsing) : py_scope.
Local Open Scope py_scope.

(** An operator's result, raised when it is an error. *)
Definition lift {A} (r : exn + A) : M A :=
  match r with
  | inl e => raise e
  | inr a => ret a
  end.

(** [try: m  except E: h] for the exceptions [handles] accepts. *)
Definition try_except {A} (m : M A) (handles : exn -> bool) (h : M A) : M A :=
  fun w =>
    match m w with
    | (Raise e, w') => if handles e then h w' else (Raise e, w')
    | r => r
    end.

(** [for x in l: body(x)] *)
Fixpoint for_each {A} (l : list A) (body : A -> M unit) : M unit :=
  match l with
  | [] => ret tt
  | x :: l' => body x ;; for_each l' body
  end.

Definition set_fs (f : gmap string node) (w : World) : World :=
  mkWorld f (class_colors w) (stdout w) (requests_sent w).

Definition set_class_colors (c : list (py.key * color)) (w : World) : World :=
  mkWorld (fs w) c (stdout w) (requests_sent w).

Definition print (l : line) : M unit :=
  fun w => (Ok tt, mkWorld (fs w) (class_colors w) (stdout w ++ [l]) (requests_sent w)).

(** ** The file system *)

(** The directory a path lies in: the text before its last separator,
    empty for a name in the working directory. *)
Definition parent (path : string) : string :=
  match os_path.rfind os_path.sep path with
  | Some i => os_path.take i path
  | None => ""
  end.

Definition add_entry (name : string) (entries : list string) : list string :=
  if existsb (String.eqb name) entries then entries else entries ++ [name].

(** [open(path, "rb").read()] *)
Definition read_file (path : string) : M (list byte) :=
  fun w =>
    match fs w !! path with
    | Some (File data) => (Ok data, w)
    | Some (Dir _) => (Raise IsADirectoryError, w)
    | None => (Raise FileNotFoundError, w)
    end.

(** Creating or replacing the file at [path]: its directory must exist
    (the working directory always does) and lists the new name. *)
Definition write_file (path : string) (data : list byte) : M unit :=
  fun w =>
    match fs w !! path with
    | Some (Dir _) => (Raise IsADirectoryError, w)
    | _ =>
        let d := parent path in
        if String.eqb d "" then (Ok tt, set_fs (<[path := File data]> (fs w)) w)
        else
          match fs w !! d with
          | Some (Dir entries) =>
              (Ok tt,
               set_fs (<[path := File data]>
                         (<[d := Dir (add_entry (os_path.basename path) entries)]> (fs w))) w)
          | Some (File _) => (Raise NotADirectoryError, w)
          | None => (Raise FileNotFoundError, w)
          end
    end.

(** [os.makedirs(name, exist_ok=True)] for a name in the working
    directory. *)
Definition makedirs (name : string) : M unit :=
  fun w =>
    match fs w !! name with
    | Some (Dir _) => (Ok tt, w)
    | Some (File _) => (Raise FileExistsError, w)
    | None => (Ok tt, set_fs (<[name := Dir []]> (fs w)) w)
    end.

(** [os.path.exists(path)] *)
Definition path_exists (path : string) : M bool :=
  fun w => (Ok (bool_decide (is_Some (fs w !! path))), w).

(** [os.listdir(path)] *)
Definition listdir (path : string) : M (list string) :=
  fun w =>
    match fs w !! path with
    | Some (Dir entries) => (Ok entries, w)
    | Some (File _) => (Raise NotADirectoryError, w)
    | None => (Raise FileNotFoundError, w)
    end.

(** [shutil.copy(src, dst)]: into [dst] when it is a directory; refuses
    to copy a file onto itself. *)
Definition shutil_copy (src dst : string) : M unit :=
  fun w =>
    let dst' := match fs w !! dst with
                | Some (Dir _) => os_path.join dst (os_path.basename src)
                | _ => dst
                end in
    if String.eqb src dst' && bool_decide (is_Some (fs w !! src))
    then (Raise SameFileError, w)
    else (data <- read_file src ;; write_file dst' data) w.

(** ** The network *)

(** [requests.post]: the environment answers the request, or raises. *)
Definition requests_post (env : Env) (req : request) : M Response :=
  fun w =>
    let w' := mkWorld (fs w) (class_colors w) (stdout w) (S (requests_sent w)) in
    match http env (requests_sent w) req with
    | inl e => (Raise e, w')
    | inr resp => (Ok resp, w')
    end.

(** [resp.json()] *)
Definition resp_json (resp : Response) : M json :=
  match body resp with
  | Some j => ret j
  | None => raise JSONDecodeError
  end.

(** ** Pillow *)

(** [Image.open(path)] followed by [ImageDraw.Draw(image)]. *)
Definition Image_open (env : Env) (path : string) : M Image :=
  data <- read_file path ;;
  size <- lift (pil_decode env data) ;;
  ret (mkImage data size []).

(** A call on the drawing context: it raises, or the image records it. *)
Definition draw (env : Env) (image : Image) (op : draw_op) : M Image :=
  match pil_draw env image op with
  | Some e => raise e
  | None => ret (mkImage (im_source image) (im_size image) (im_drawn image ++ [op]))
  end.

(** [image.save(path)]: the file is opened for writing before the image
    is encoded; when the encoder raises, a file that already existed stays
    truncated and one that did not is removed again. *)
Definition image_save (env : Env) (image : Image) (path : string) : M unit :=
  fun w =>
    match pil_encode env image with
    | inr data => write_file path data w
    | inl e =>
        match write_file path [] w with
        | (Ok _, w') => (Raise e, if bool_decide (is_Some (fs w !! path)) then w' else w)
        | r => r
        end
    end.

(** [ImageFont.truetype(path, size=size)] *)
Definition ImageFont_truetype (env : Env) (path : string) (size : Z) : M Font :=
  if truetype env path size then ret (TrueTypeFont path size) else raise OSError.

(** ** The script: configuration (lines 9-18) *)

Definition BASE_URL : string := "".
Definition INPUT_FOLDER : string := "input_images".
Definition FONT_PATH : string := "AI_Model/Fonts/THSarabunNew BoldItalic.ttf".
Definition OUTPUT_FOLDER : string := "labelme_output".
Definition username : string := "".
Definition password : string := "".

(** ** [get_color_for_class] (lines 20-43) *)

Definition color_palette : list color :=
  [ (255, 0, 0); (0, 255, 0); (0, 0, 255); (255, 255, 0);
    (255, 0, 255); (0, 255, 255); (128, 0, 0); (0, 128, 0);
    (0, 0, 128); (128, 128, 0); (128, 0, 128); (0, 128, 128) ].

(** [class_colors[k]], [None] when [k not in class_colors]. *)
Fixpoint lookup_color (k : py.key) (cc : list (py.key * color)) : option color :=
  match cc with
  | [] => None
  | (k', c) :: cc' => if py.key_eqb k' k then Some c else lookup_color k cc'
  end.

Definition get_color_for_class (class_name : json) : M color :=
  k <- lift (py.hash class_name) ;;
  fun w =>
    match lookup_color k (class_colors w) with
    | Some c => (Ok c, w)
    | None =>
        let i := Z.of_nat (length (class_colors w)) mod Z.of_nat (length color_palette) in
        match color_palette !! Z.to_nat i with
        | Some assigned_color =>
            (Ok assigned_color,
             set_class_colors (class_colors w ++ [(k, assigned_color)]) w)
        | None => (Raise IndexError, w)
        end
    end.

(** ** [generate_labelme_json] (lines 45-63) *)

Definition generate_labelme_json (image_path : string) (shapes : list json)
    (image_width image_height : Z) : M json :=
  data <- read_file image_path ;;
  let image_data := base64.b64encode data in
  let labelme_json :=
    JDict [ ("version", JStr "5.0.1");
            ("flags", JDict []);
            ("shapes", JList shapes);
            ("imagePath", JStr (os_path.basename image_path));
            ("imageData", JStr image_data);
            ("imageWidth", JInt image_width);
            ("imageHeight", JInt image_height) ] in
  ret labelme_json.

(** ** [process_image] (lines 65-138) *)

(** [f"{class_name}: {confidence:.2f}"]: the [f] presentation type takes
    numbers only, and an [int] is converted to [float] first. *)
Definition format_label (class_name confidence : json) : exn + label :=
  match confidence with
  | JBool _ | JFloat _ => inr (LabelText class_name confidence)
  | JInt n =>
      match py.float_of_int n with
      | inl e => inl e
      | inr _ => inr (LabelText class_name confidence)
      end
  | JStr _ => inl ValueError
  | JNull | JList _ | JDict _ => inl TypeError
  end.

(** The shape of lines 112-118. *)
Definition shape_record (class_name x y xw yh : json) : json :=
  JDict [ ("label", class_name);
          ("points", JList [JList [x; y]; JList [xw; yh]]);
          ("group_id", JNull);
          ("shape_type", JStr "rectangle");
          ("flags", JDict []) ].

(** The body of the loop of lines 95-119 on the image and the shapes so
    far. *)
Definition annotate_one (env : Env) (font : Font) (pred : json)
    (st : Image * list json) : M (Image * list json) :=
  let image := fst st in
  let shapes := snd st in
  x <- lift (py.getitem pred "x") ;;
  y <- lift (py.getitem pred "y") ;;
  w <- lift (py.getitem pred "w") ;;
  h <- lift (py.getitem pred "h") ;;
  class_name <- lift (py.getitem pred "class_name") ;;
  confidence <- lift (py.getitem pred "confidence") ;;
  color <- get_color_for_class class_name ;;
  xw <- lift (py.add x w) ;;
  yh <- lift (py.add y h) ;;
  image <- draw env image (Rectangle (x, y) (xw, yh) color 2) ;;
  label_text <- lift (format_label class_name confidence) ;;
  y20 <- lift (py.sub y (JInt 20)) ;;
  image <- draw env image (Text (x, y20) label_text font color) ;;
  xw' <- lift (py.add x w) ;;
  yh' <- lift (py.add y h) ;;
  let shape := shape_record class_name x y xw' yh' in
  ret (image, shapes ++ [shape]).

Fixpoint annotate (env : Env) (font : Font) (predictions : list json)
    (st : Image * list json) : M (Image * list json) :=
  match predictions with
  | [] => ret st
  | pred :: rest =>
      st' <- annotate_one env font pred st ;;
      annotate env font rest st'
  end.

(** The three paths of lines 122-136. *)
Definition base_name (image_path : string) : string :=
  fst (os_path.splitext (os_path.basename image_path)).

Definition output_image_path (image_path : string) : string :=
  os_path.join OUTPUT_FOLDER (base_name image_path +:+ "_prediction.jpg").

Definition json_filename (image_path : string) : string :=
  os_path.join OUTPUT_FOLDER (base_name image_path +:+ ".json").

Definition image_copy_path (image_path : string) : string :=
  os_path.join OUTPUT_FOLDER (os_path.basename image_path).

(** Lines 121-138: the preview, the annotation and the copy. *)
Definition save_outputs (env : Env) (image_path : string) (image : Image)
    (shapes : list json) : M unit :=
  image_save env image (output_image_path image_path) ;;
  print (PrintSavedPreview (output_image_path image_path)) ;;
  let width := fst (im_size image) in
  let height := snd (im_size image) in
  labelme_json <- generate_labelme_json image_path shapes width height ;;
  write_file (json_filename image_path) (json_dump env labelme_json) ;;
  print (PrintSavedJson (json_filename image_path)) ;;
  shutil_copy image_path (image_copy_path image_path) ;;
  print (PrintCopied (image_copy_path image_path)).

(** Lines 73-79: the upload, [None] when the file is not found. *)
Definition send_image (env : Env) (image_path prediction_url : string)
    (headers : list (string * header)) : M (option Response) :=
  try_except
    (f <- read_file image_path ;;
     resp <- requests_post env
               (PostFiles prediction_url headers "image"
                  (os_path.basename image_path) "image/jpeg" f) ;;
     ret (Some resp))
    is_FileNotFoundError
    (print (PrintImageNotFound image_path) ;; ret None).

(** Lines 85-138: what is done with a 201 response. *)
Definition handle_response (env : Env) (image_path : string) (font : Font)
    (resp : Response) : M unit :=
  j <- resp_json resp ;;
  predictions <- lift (py.get j "result" (JList [])) ;;
  n <- lift (py.len predictions) ;;
  print (PrintReceived n (os_path.basename image_path)) ;;
  j' <- resp_json resp ;;
  image_info <- lift (py.get j' "image_info" (JList [])) ;;
  print (PrintImageInfo image_info) ;;
  image <- Image_open env image_path ;;
  preds <- lift (py.iter predictions) ;;
  st <- annotate env font preds (image, []) ;;
  save_outputs env image_path (fst st) (snd st).

Definition process_image (env : Env) (image_path prediction_url : string)
    (headers : list (string * header)) (font : Font) : M unit :=
  print (PrintProcessing image_path) ;;
  r <- send_image env image_path prediction_url headers ;;
  match r with
  | None => ret tt
  | Some resp =>
      if negb (status_code resp =? 201) then
        print (PrintPredictionFailed image_path (text resp))
      else
        handle_response env image_path font resp
  end.

(** ** [main] (lines 140-183) *)

Definition lower_char (c : ascii) : ascii :=
  let n := nat_of_ascii c in
  if (65 <=? n)%nat && (n <=? 90)%nat then ascii_of_nat (n + 32) else c.

(** [s.lower()] *)
Fixpoint lower (s : string) : string :=
  match s with
  | EmptyString => EmptyString
  | String c r => String (lower_char c) (lower r)
  end.

(** [s.endswith(suffix)] *)
Fixpoint endswith (s suffix : string) : bool :=
  String.eqb s suffix ||
  match s with
  | EmptyString => false
  | String _ r => endswith r suffix
  end.

Definition allowed_extensions : list string := [".png"; ".jpg"; ".jpeg"].

Definition is_image_file (f : string) : bool :=
  existsb (endswith (lower f)) allowed_extensions.

(** Lines 181-183: the loop over the discovered files. *)
Definition process_all (env : Env) (image_files : list string)
    (prediction_url : string) (headers : list (string * header))
    (font : Font) : M unit :=
  for_each image_files
    (fun image_file =>
       let image_path := os_path.join INPUT_FOLDER image_file in
       process_image env image_path prediction_url headers font).

Definition main (env : Env) : M unit :=
  let login_url := BASE_URL +:+ "/login" in
  let credentials :=
    JDict [("username", JStr username); ("password", JStr password)] in
  print PrintLoggingIn ;;
  resp <- requests_post env (PostJson login_url credentials) ;;
  if negb (status_code resp =? 200) then
    print (PrintLoginFailed (text resp))
  else
    (j <- resp_json resp ;;
     access_token <- lift (py.get j "access_token" JNull) ;;
     if negb (py.truthy access_token) then
       print PrintTokenNotFound
     else
       (print PrintLoginSuccessful ;;
        makedirs OUTPUT_FOLDER ;;
        let prediction_url := BASE_URL +:+ "/predictionbox" in
        let headers := [("Authorization", Bearer access_token)] in
        font <- try_except (ImageFont_truetype env FONT_PATH 16) is_IOError
                  (print PrintFontWarning ;; ret DefaultFont) ;;
        found <- path_exists INPUT_FOLDER ;;
        if negb found then
          print (PrintNoInputFolder INPUT_FOLDER)
        else
          (names <- listdir INPUT_FOLDER ;;
           let image_files := List.filter is_image_file names in
           match image_files with
           | [] => print (PrintNoImages INPUT_FOLDER)
           | _ => process_all env image_files prediction_url headers font
           end))).

(** ** Auxiliary definitions for the statements *)

(** The colours a sequence of calls of [get_color_for_class] returns. *)
Fixpoint colors_for (names : list string) : M (list color) :=
  match names with
  | [] => ret []
  | name :: rest =>
      c <- get_color_for_class (JStr name) ;;
      cs <- colors_for rest ;;
      ret (c :: cs)
  end.

(** The palette entry for the [n]-th class seen. *)
Definition palette_at (n : nat) : color :=
  nth (n mod 12) color_palette (0, 0, 0).

(** A step that leaves the files, the output and the request count as
    they are (it may still assign colours). *)
Definition keeps {A} (m : M A) : Prop :=
  forall w, fs (snd (m w)) = fs w /\
            stdout (snd (m w)) = stdout w /\
            requests_sent (snd (m w)) = requests_sent w.



(** An image that was processed to the end: the file was there, the
    service answered its upload with 201, [process_image] returned, the
    file is not itself named [*.json] and no directory sits where its copy
    goes. *)
Definition processed (env : Env) (image_path prediction_url : string)
    (headers : list (string * header)) (font : Font) (w w' : World)
    (data : list byte) (resp : Response) : Prop :=
  fs w !! image_path = Some (File data) /\
  http env (requests_sent w)
    (PostFiles prediction_url headers "image" (os_path.basename image_path)
       "image/jpeg" data) = inr resp /\
  status_code resp = 201 /\
  (forall es, fs w !! image_copy_path image_path <> Some (Dir es)) /\
  snd (os_path.splitext (os_path.basename image_path)) <> ".json" /\
  process_image env image_path prediction_url headers font w = (Ok tt, w').


(** The request of line 146. *)
Definition login_request : request :=
  PostJson (BASE_URL +:+ "/login")
    (JDict [("username", JStr username); ("password", JStr password)]).

(** The world [main] returns in when it gives up after the login: one
    request sent, two lines printed, nothing else touched. *)
Definition gave_up (w : World) (said : line) : World :=
  mkWorld (fs w) (class_colors w) (stdout w ++ [PrintLoggingIn; said])
    (S (requests_sent w)).

(** [s[-1]], when there is one. *)
Fixpoint last_char (s : string) : option ascii :=
  match s with
  | EmptyString => None
  | String a EmptyString => Some a
  | String _ r => last_char r
  end.

(** ** A concrete service and concrete folders

    The service of the examples: login answers as given ([demo_env]: 200
    with a token); the prediction endpoint answers by file name. *)

Definition detection (x y w h : Z) (class_name : string) (confidence : float) : json :=
  JDict [ ("x", JInt x); ("y", JInt y); ("w", JInt w); ("h", JInt h);
          ("class_name", JStr class_name); ("confidence", JFloat confidence) ].

Definition demo_prediction (filename : string) : Response :=
  if String.eqb filename "a.jpg" then
    mkResponse 201 "" (Some (JDict [("result", JList [detection 10 10 50 50 "cat" 0.875])]))
  else if String.eqb filename "a.png" then
    mkResponse 201 "" (Some (JDict [("result", JList [detection 1 2 3 4 "dog" 0.5;
                                                       detection 5 6 7 8 "cat" 0.25])]))
  else if String.eqb filename "b.png" then
    mkResponse 500 "Internal Server Error" None
  else if String.eqb filename "c.png" then
    (* a record without "x" *)
    mkResponse 201 ""
      (Some (JDict [("result",
                     JList [JDict [ ("y", JInt 10); ("w", JInt 50); ("h", JInt 50);
                                    ("class_name", JStr "cat");
                                    ("confidence", JFloat 0.875) ]])]))
  else if String.eqb filename "d.png" then
    (* no "result" and no "image_info" *)
    mkResponse 201 "" (Some (JDict []))
  else
    mkResponse 201 "" (Some (JDict [("result", JList []); ("image_info", JDict [])])).

(** Pillow in the examples: an empty file is not an image; every other
    file is 100 by 80; every drawing call is accepted; the encoder's
    bytes are the source bytes followed by one byte per drawing call.
    The serialiser's bytes are the document's image name followed by one
    byte per shape. *)
Definition service (login : Response) : Env :=
  mkEnv
    (fun _ req =>
       match req with
       | PostJson _ _ => inr login
       | PostFiles _ _ _ filename _ _ => inr (demo_prediction filename)
       end)
    (fun data => match data with [] => inl UnidentifiedImageError | _ => inr (100, 80) end)
    (fun _ _ => None)
    (fun image => inr (im_source image ++ map (fun _ => x2a%byte) (im_drawn image)))
    (fun doc => match py.getitem doc "imagePath", py.getitem doc "shapes" with
                | inr (JStr name), inr (JList shapes) =>
                    list_byte_of_string name ++ map (fun _ => x2a%byte) shapes
                | _, _ => []
                end)
    (fun _ _ => false).

Definition demo_env : Env :=
  service (mkResponse 200 "" (Some (JDict [("access_token", JStr "secret")]))).

(** The input folder with the given files, listed in this order. *)
Definition input_folder (files : list (string * list byte)) : gmap string node :=
  foldr (fun f m => <[os_path.join INPUT_FOLDER (fst f) := File (snd f)]> m)
        (<[INPUT_FOLDER := Dir (map fst files)]> ∅) files.

(** A run that starts on these files. *)
Definition world_of (files : gmap string node) : World := mkWorld files [] [] 0.

(** A run that starts without any file: nothing printed, the registry as
    line 18 leaves it. *)
Definition empty_world : World := mkWorld ∅ [] [] 0.

(** A run on the given input files at the point where [main] has logged
    in and made the output folder. *)
Definition prepared (files : list (string * list byte)) : World :=
  mkWorld (<[OUTPUT_FOLDER := Dir []]> (input_folder files)) [] [] 1.

Definition demo_headers : list (string * header) :=
  [("Authorization", Bearer (JStr "secret"))].

(** The folder of the scenario: one image, [a.jpg]. *)
Definition scenario : World := world_of (input_folder [("a.jpg", [x01; x02]%byte)]).

(** Two files with one stem, processed one after the other. *)
Definition two_stems_w0 : World :=
  prepared [("a.jpg", [x01; x02]%byte); ("a.png", [x03]%byte)].

Definition two_stems_w1 : World :=
  snd (process_image demo_env "input_images/a.jpg" "/predictionbox" demo_headers
         DefaultFont two_stems_w0).

Definition two_stems_w2 : World :=
  snd (process_image demo_env "input_images/a.png" "/predictionbox" demo_headers
         DefaultFont two_stems_w1).

(** A folder whose first image Pillow cannot decode, a folder whose first
    image gets a record without ["x"], and a prepared folder whose first
    image the service refuses. *)
Definition undecodable_first : World :=
  world_of (input_folder [("bad.png", []); ("a.jpg", [x01; x02]%byte)]).


Definition refused_first : World :=
  prepared [("b.png", [x03]%byte); ("a.jpg", [x01; x02]%byte)].

(** ** Further definitions for the statements *)

(** The registry stands in the palette's order: the [i]-th class seen has
    the palette colour at [i mod 12]. *)
Definition registry_ok (cc : list (py.key * color)) : Prop :=
  forall i k c, cc !! i = Some (k, c) -> color_palette !! (i mod 12)%nat = Some c.

(** The registry only grows, at its end, and stays in the palette's
    order. *)
Definition registry_grows (w w' : World) : Prop :=
  class_colors w `prefix_of` class_colors w' /\
  (registry_ok (class_colors w) -> registry_ok (class_colors w')).

(** [s.startswith(prefix)] *)
Fixpoint startswith (s prefix : string) {struct prefix} : bool :=
  match prefix, s with
  | EmptyString, _ => true
  | String a prefix', String b s' => Ascii.eqb a b && startswith s' prefix'
  | String _ _, EmptyString => false
  end.

(** The paths of the output folder: the folder and what lies below it. *)
Definition in_output (path : string) : bool :=
  String.eqb path OUTPUT_FOLDER || startswith path "labelme_output/".

(** Whatever is not of the output folder is as it was. *)
Definition outside_untouched (w w' : World) : Prop :=
  forall q, in_output q = false -> fs w' !! q = fs w !! q.

(** Every state a computation can end in, returning or raising, is
    related to the state it starts in. *)
Definition steps {A} (R : World -> World -> Prop) (m : M A) : Prop :=
  forall w, R w (snd (m w)).

(** What was there stays: a file stays a file, a directory stays a
    directory and lists what it listed. *)
Definition fs_persists (w w' : World) : Prop :=
  forall q,
    match fs w !! q with
    | Some (File _) => exists data, fs w' !! q = Some (File data)
    | Some (Dir entries) =>
        exists entries', fs w' !! q = Some (Dir entries') /\ entries ⊆ entries'
    | None => True
    end.


(** Lines 155-183 of [main]: what is done with a token. *)
Definition run_batch (env : Env) (access_token : json) : M unit :=
  print PrintLoginSuccessful ;;
  makedirs OUTPUT_FOLDER ;;
  let prediction_url := BASE_URL +:+ "/predictionbox" in
  let headers := [("Authorization", Bearer access_token)] in
  font <- try_except (ImageFont_truetype env FONT_PATH 16) is_IOError
            (print PrintFontWarning ;; ret DefaultFont) ;;
  found <- path_exists INPUT_FOLDER ;;
  if negb found then
    print (PrintNoInputFolder INPUT_FOLDER)
  else
    (names <- listdir INPUT_FOLDER ;;
     let image_files := List.filter is_image_file names in
     match image_files with
     | [] => print (PrintNoImages INPUT_FOLDER)
     | _ => process_all env image_files prediction_url headers font
     end).

(** The font line 162-166 end with. *)
Definition font_loaded (env : Env) : Font :=
  if truetype env FONT_PATH 16 then TrueTypeFont FONT_PATH 16 else DefaultFont.

(** The two calls lines 105-109 make for a Detection Record, in the colour
    the registry [cc] holds for its class name. *)
Definition drawn_for (font : Font) (cc : list (py.key * color)) (pred : json)
    (ops : list draw_op) : Prop :=
  exists x y w h class_name confidence k c xw yh y20 label_text,
    py.getitem pred "x" = inr x /\
    py.getitem pred "y" = inr y /\
    py.getitem pred "w" = inr w /\
    py.getitem pred "h" = inr h /\
    py.getitem pred "class_name" = inr class_name /\
    py.getitem pred "confidence" = inr confidence /\
    py.hash class_name = inr k /\
    lookup_color k cc = Some c /\
    py.add x w = inr xw /\
    py.add y h = inr yh /\
    py.sub y (JInt 20) = inr y20 /\
    format_label class_name confidence = inr label_text /\
    ops = [Rectangle (x, y) (xw, yh) c 2; Text (x, y20) label_text font c].


(** The state [main] starts the batch in: logged in, the output folder
    made, the font warning printed when the font did not load. *)
Definition logged_in (env : Env) (w : World) : World :=
  mkWorld
    (match fs w !! OUTPUT_FOLDER with
     | None => <[OUTPUT_FOLDER := Dir []]> (fs w)
     | Some _ => fs w
     end)
    (class_colors w)
    (stdout w ++ [PrintLoggingIn; PrintLoginSuccessful]
       ++ (if truetype env FONT_PATH 16 then [] else [PrintFontWarning]))
    (S (requests_sent w)).

(** The three files lines 122-136 write for an image. *)
Definition outputs (image_path : string) : list string :=
  [output_image_path image_path; json_filename image_path;
   image_copy_path image_path].

(** ** Further environments and folders of the examples *)

(** The service cannot be reached. *)
Definition offline : Env :=
  mkEnv (fun _ _ => inl RequestException) (pil_decode demo_env) (pil_draw demo_env)
    (pil_encode demo_env) (json_dump demo_env) (truetype demo_env).

(** Pillow cannot encode the preview. *)
Definition no_encoder : Env :=
  mkEnv (http demo_env) (pil_decode demo_env) (pil_draw demo_env)
    (fun _ => inl OSError) (json_dump demo_env) (truetype demo_env).

(** Every upload is answered with [{"result": null}]. *)
Definition null_result : Env :=
  mkEnv
    (fun n req =>
       match req with
       | PostJson _ _ => http demo_env n req
       | PostFiles _ _ _ _ _ _ =>
           inr (mkResponse 201 "" (Some (JDict [("result", JNull)])))
       end)
    (pil_decode demo_env) (pil_draw demo_env) (pil_encode demo_env)
    (json_dump demo_env) (truetype demo_env).

(** An input folder that lists a directory named like an image. *)
Definition directory_listed : World :=
  world_of (<["input_images/x.png" := Dir []]> (<[INPUT_FOLDER := Dir ["x.png"]]> ∅)).

(** * Properties *)

(** ** Base64 *)

Module base64_facts.
Import base64.

Lemma below_64 (P : N -> bool) :
  forallb (fun n => P (N.of_nat n)) (seq 0 64) = true ->
  forall i, (i < 64)%N -> P i = true.
Proof.
  intros Hall i Hi.
  rewrite forallb_forall in Hall.
  rewrite <- (N2Nat.id i).
  apply Hall, in_seq. lia.
Qed.

Lemma index_of_char_of (i : N) : (i < 64)%N -> index_of (char_of i) = Some i.
Proof.
  intros Hi.
  pose proof (below_64
    (fun i => match index_of (char_of i) with
              | Some j => N.eqb j i
              | None => false
              end)) as H.
  specialize (H ltac:(vm_compute; reflexivity) i Hi). simpl in H.
  destruct (index_of (char_of i)) as [j|]; [|discriminate].
  apply N.eqb_eq in H. now subst.
Qed.

Lemma char_of_not_pad (i : N) : (i < 64)%N -> Ascii.eqb (char_of i) pad = false.
Proof.
  intros Hi.
  pose proof (below_64 (fun i => negb (Ascii.eqb (char_of i) pad))) as H.
  specialize (H ltac:(vm_compute; reflexivity) i Hi). simpl in H.
  now apply negb_true_iff in H.
Qed.

Ltac octets :=
  unfold s0, s1, s2, s3 in *; zify; Z.to_euclidean_division_equations; lia.

Lemma s0_lt a : (a <= 255)%N -> (s0 a < 64)%N.
Proof. intros; octets. Qed.
Lemma s1_lt a b : (b <= 255)%N -> (s1 a b < 64)%N.
Proof. intros; octets. Qed.
Lemma s2_lt b c : (c <= 255)%N -> (s2 b c < 64)%N.
Proof. intros; octets. Qed.
Lemma s3_lt c : (s3 c < 64)%N.
Proof. octets. Qed.

Lemma o0_s a b : (b <= 255)%N -> o0 (s0 a) (s1 a b) = Byte.of_N a.
Proof. intros; unfold o0; f_equal; octets. Qed.
Lemma o1_s a b c : (b <= 255)%N -> (c <= 255)%N -> o1 (s1 a b) (s2 b c) = Byte.of_N b.
Proof. intros; unfold o1; f_equal; octets. Qed.
Lemma o2_s b c : (c <= 255)%N -> o2 (s2 b c) (s3 c) = Byte.of_N c.
Proof. intros; unfold o2; f_equal; octets. Qed.

Lemma decode_group (c0 c1 c2 c3 : ascii) (rest : string) :
  b64decode (String c0 (String c1 (String c2 (String c3 rest)))) =
  (i ← index_of c0;
   j ← index_of c1;
   x ← o0 i j;
   if Ascii.eqb c2 pad then
     if Ascii.eqb c3 pad && String.eqb rest "" then Some [x] else None
   else
     k ← index_of c2;
     y ← o1 j k;
     if Ascii.eqb c3 pad then
       if String.eqb rest "" then Some [x; y] else None
     else
       l ← index_of c3;
       z ← o2 k l;
       tl ← b64decode rest;
       Some (x :: y :: z :: tl)).
Proof. reflexivity. Qed.

Lemma b64decode_b64encode_upto (n : nat) :
  forall data : list byte,
    (length data <= n)%nat -> b64decode (b64encode data) = Some data.
Proof.
  induction n as [|n IH]; intros data Hlen.
  - destruct data; [reflexivity | simpl in Hlen; lia].
  - destruct data as [|a [|b [|c rest]]]; [reflexivity | | |].
    + pose proof (Byte.to_N_bounded a).
      cbn [b64encode]. rewrite decode_group.
      rewrite !index_of_char_of by (apply s0_lt || apply s1_lt; lia).
      cbn [mbind option_bind]. rewrite o0_s, Byte.of_to_N by lia.
      cbn [mbind option_bind]. reflexivity.
    + pose proof (Byte.to_N_bounded a). pose proof (Byte.to_N_bounded b).
      cbn [b64encode]. rewrite decode_group.
      rewrite !index_of_char_of by (apply s0_lt || apply s1_lt || apply s2_lt; lia).
      cbn [mbind option_bind]. rewrite o0_s, Byte.of_to_N by lia.
      cbn [mbind option_bind]. rewrite char_of_not_pad by (apply s2_lt; lia).
      rewrite o1_s, Byte.of_to_N by lia.
      cbn [mbind option_bind]. reflexivity.
    + pose proof (Byte.to_N_bounded a). pose proof (Byte.to_N_bounded b).
      pose proof (Byte.to_N_bounded c).
      cbn [b64encode]. rewrite decode_group.
      rewrite !index_of_char_of
        by (apply s0_lt || apply s1_lt || apply s2_lt || apply s3_lt; lia).
      cbn [mbind option_bind]. rewrite o0_s, Byte.of_to_N by lia.
      cbn [mbind option_bind]. rewrite char_of_not_pad by (apply s2_lt; lia).
      rewrite o1_s, Byte.of_to_N by lia.
      cbn [mbind option_bind]. rewrite char_of_not_pad by apply s3_lt.
      rewrite o2_s, Byte.of_to_N by lia.
      cbn [mbind option_bind]. rewrite IH by (simpl in Hlen; lia).
      reflexivity.
Qed.

Lemma b64decode_b64encode (data : list byte) :
  b64decode (b64encode data) = Some data.
Proof. exact (b64decode_b64encode_upto (length data) data (le_n _)). Qed.

End base64_facts.

(** ** The colour registry *)

Section registry.

Lemma palette_lookup (n : nat) :
  color_palette !! Z.to_nat (Z.of_nat n mod Z.of_nat (length color_palette))
  = Some (palette_at n).
Proof.
  change (Z.of_nat (length color_palette)) with (Z.of_nat 12).
  rewrite <- Nat2Z.inj_mod, Nat2Z.id.
  assert (n mod 12 < 12)%nat as Hlt by (apply Nat.mod_upper_bound; lia).
  unfold palette_at. revert Hlt. generalize (n mod 12)%nat. intros i Hi.
  do 12 (destruct i as [|i]; [reflexivity|]). lia.
Qed.

Lemma get_color_hit (w : World) (name : string) (c : color) :
  lookup_color (py.KStr name) (class_colors w) = Some c ->
  get_color_for_class (JStr name) w = (Ok c, w).
Proof.
  intros H. unfold get_color_for_class, bind, lift, ret. simpl.
  now rewrite H.
Qed.

Lemma get_color_miss (w : World) (name : string) :
  lookup_color (py.KStr name) (class_colors w) = None ->
  get_color_for_class (JStr name) w =
  (Ok (palette_at (length (class_colors w))),
   set_class_colors
     (class_colors w ++ [(py.KStr name, palette_at (length (class_colors w)))]) w).
Proof.
  intros H. unfold get_color_for_class, bind, lift, ret. simpl.
  now rewrite H, palette_lookup.
Qed.

Lemma lookup_color_app (k k' : py.key) (c : color) (cc : list (py.key * color)) :
  lookup_color k (cc ++ [(k', c)]) =
  match lookup_color k cc with
  | Some x => Some x
  | None => if py.key_eqb k' k then Some c else None
  end.
Proof.
  induction cc as [|[k0 c0] cc IH]; simpl; [reflexivity|].
  now destruct (py.key_eqb k0 k).
Qed.

(** A call returns, and keeps every colour already assigned. *)
Lemma get_color_total (w : World) (name : string) :
  exists c w',
    get_color_for_class (JStr name) w = (Ok c, w') /\
    lookup_color (py.KStr name) (class_colors w') = Some c /\
    forall k x, lookup_color k (class_colors w) = Some x ->
                lookup_color k (class_colors w') = Some x.
Proof.
  destruct (lookup_color (py.KStr name) (class_colors w)) as [c|] eqn:E.
  - exists c, w. rewrite (get_color_hit _ _ _ E). auto.
  - eexists _, _. rewrite (get_color_miss _ _ E). split; [reflexivity|].
    simpl. split.
    + rewrite lookup_color_app, E. simpl. now rewrite String.eqb_refl.
    + intros k x Hk. now rewrite lookup_color_app, Hk.
Qed.

Lemma colors_for_total (names : list string) :
  forall w, exists cs w',
    colors_for names w = (Ok cs, w') /\
    forall k x, lookup_color k (class_colors w) = Some x ->
                lookup_color k (class_colors w') = Some x.
Proof.
  induction names as [|name rest IH]; intros w.
  - exists [], w. auto.
  - destruct (get_color_total w name) as (c & w1 & Hc & _ & Hkeep).
    destruct (IH w1) as (cs & w2 & Hcs & Hkeep2).
    exists (c :: cs), w2. split; [|auto].
    simpl. unfold bind at 1. rewrite Hc. unfold bind at 1. now rewrite Hcs.
Qed.

(** Names the registry has not seen take the palette in order. *)
Lemma colors_for_fresh (names : list string) :
  forall w,
    NoDup names ->
    (forall name, name ∈ names ->
                  lookup_color (py.KStr name) (class_colors w) = None) ->
    exists w',
      colors_for names w =
      (Ok (map palette_at (seq (length (class_colors w)) (length names))), w').
Proof.
  induction names as [|name rest IH]; intros w Hnd Hfresh.
  - exists w. reflexivity.
  - apply NoDup_cons in Hnd as [Hnotin Hnd].
    pose proof (get_color_miss w name (Hfresh name ltac:(left))) as Hc.
    set (w1 := set_class_colors _ w) in Hc.
    destruct (IH w1 Hnd) as (w2 & Hcs).
    + intros m Hm. subst w1. simpl. rewrite lookup_color_app.
      rewrite (Hfresh m) by now right. simpl.
      destruct (String.eqb_spec name m) as [->|]; [contradiction|reflexivity].
    + exists w2. simpl. unfold bind at 1. rewrite Hc. unfold bind at 1.
      rewrite Hcs. unfold ret. subst w1. simpl.
      rewrite length_app. simpl. now rewrite Nat.add_1_r.
Qed.

Lemma palette_prefix_NoDup (n : nat) :
  (n <= 12)%nat -> NoDup (map palette_at (seq 0 n)).
Proof.
  intros Hn.
  do 13 (destruct n as [|n]; [compute_done|]).
  lia.
Qed.

Lemma palette_at_lookup (n : nat) :
  color_palette !! (n mod 12)%nat = Some (palette_at n).
Proof.
  assert (n mod 12 < 12)%nat as Hlt by (apply Nat.mod_upper_bound; lia).
  unfold palette_at. revert Hlt. generalize (n mod 12)%nat. intros i Hi.
  do 12 (destruct i as [|i]; [reflexivity|]). lia.
Qed.

End registry.

(** C3.  [get_color_for_class] is stable and cycles through the palette.
    A name keeps the colour of its first call, whatever names are asked
    for in between.  From the empty registry a run starts with, distinct
    names take the palette entry at (number of classes seen so far) mod
    12: up to 12 distinct names get pairwise distinct colours, and the
    13th gets the colour of the 1st. *)
Theorem get_color_for_class_stable_and_cyclic :
  (forall (w : World) (name : string) (others : list string),
     exists c w1 cs w2,
       get_color_for_class (JStr name) w = (Ok c, w1) /\
       colors_for others w1 = (Ok cs, w2) /\
       get_color_for_class (JStr name) w2 = (Ok c, w2)) /\
  (forall (w : World) (names : list string),
     class_colors w = [] ->
     NoDup names ->
     exists cs w',
       colors_for names w = (Ok cs, w') /\
       length cs = length names /\
       (forall i c, cs !! i = Some c -> color_palette !! (i mod 12)%nat = Some c) /\
       ((length names <= 12)%nat -> NoDup cs) /\
       (length names = 13%nat -> cs !! 12%nat = cs !! 0%nat)).
Proof.
  split.
  - intros w name others.
    destruct (get_color_total w name) as (c & w1 & Hc & Hin & _).
    destruct (colors_for_total others w1) as (cs & w2 & Hcs & Hkeep).
    exists c, w1, cs, w2. repeat split; [assumption..|].
    apply get_color_hit, Hkeep, Hin.
  - intros w names Hempty Hnd.
    destruct (colors_for_fresh names w Hnd) as (w' & Hrun).
    { intros name _. now rewrite Hempty. }
    rewrite Hempty in Hrun. simpl in Hrun.
    eexists _, w'. split; [exact Hrun|].
    split; [now rewrite length_map, length_seq|].
    split; [|split].
    + intros i c Hi. rewrite list_lookup_fmap in Hi.
      destruct (seq 0 (length names) !! i) as [j|] eqn:Hj; [|discriminate].
      apply lookup_seq in Hj as [-> _]. simpl in Hi.
      injection Hi as <-. apply palette_at_lookup.
    + apply palette_prefix_NoDup.
    + intros ->. reflexivity.
Qed.

Lemma get_color_for_class_stable_and_cyclic_witness :
  exists cs w',
    colors_for ["cat"; "dog"; "bird"] empty_world = (Ok cs, w') /\
    length cs = 3%nat /\
    (forall i c, cs !! i = Some c -> color_palette !! (i mod 12)%nat = Some c) /\
    ((3 <= 12)%nat -> NoDup cs) /\
    (3%nat = 13%nat -> cs !! 12%nat = cs !! 0%nat).
Proof.
  apply (proj2 get_color_for_class_stable_and_cyclic empty_world
           ["cat"; "dog"; "bird"]).
  - reflexivity.
  - compute_done.
Defined.

(** ** Paths *)

Module os_path_facts.
Import os_path.

Lemma append_cons (a : ascii) (s t : string) :
  String a s +:+ t = String a (s +:+ t).
Proof. reflexivity. Qed.

Lemma append_nil (t : string) : "" +:+ t = t.
Proof. reflexivity. Qed.

Lemma append_nil_r (s : string) : s +:+ "" = s.
Proof. induction s as [|a s IH]; [reflexivity|]. now rewrite append_cons, IH. Qed.

Lemma take_drop (n : nat) (s : string) : take n s +:+ drop n s = s.
Proof.
  revert s; induction n as [|n IH]; intros [|a r]; try reflexivity.
  cbn [take drop]. rewrite append_cons. f_equal. apply IH.
Qed.

Lemma app_inv_head (a b c : string) : a +:+ b = a +:+ c -> b = c.
Proof.
  induction a as [|x a IH]; intros H; [assumption|].
  rewrite !append_cons in H. injection H as H. auto.
Qed.

Lemma rfind_None_cons (c a : ascii) (r : string) :
  rfind c (String a r) = None <-> Ascii.eqb a c = false /\ rfind c r = None.
Proof.
  simpl. destruct (rfind c r); [|destruct (Ascii.eqb a c)]; intuition congruence.
Qed.

Lemma rfind_drop (c : ascii) (s : string) :
  forall i, rfind c s = Some i -> rfind c (drop (S i) s) = None.
Proof.
  induction s as [|a r IH]; intros i H; simpl in H; [discriminate|].
  destruct (rfind c r) as [j|] eqn:E.
  - injection H as <-. simpl. destruct r; [discriminate|]. now apply IH.
  - destruct (Ascii.eqb a c); [|discriminate]. injection H as <-.
    simpl. destruct r; [reflexivity|assumption].
Qed.

Lemma rfind_Some_drop (c : ascii) (s : string) :
  forall i, rfind c s = Some i -> exists r, drop i s = String c r.
Proof.
  induction s as [|a r IH]; intros i H; simpl in H; [discriminate|].
  destruct (rfind c r) as [j|] eqn:E.
  - injection H as <-. simpl. now apply IH.
  - destruct (Ascii.eqb_spec a c) as [->|]; [|discriminate].
    injection H as <-. now exists r.
Qed.

Lemma rfind_take_None (c : ascii) (s : string) :
  forall n, rfind c s = None -> rfind c (take n s) = None.
Proof.
  induction s as [|a r IH]; intros [|n] H; try reflexivity.
  apply rfind_None_cons in H as [Ha Hr].
  cbn [take]. apply rfind_None_cons. auto.
Qed.

Lemma rfind_app_None (c : ascii) (a b : string) :
  rfind c a = None -> rfind c b = None -> rfind c (a +:+ b) = None.
Proof.
  induction a as [|x a IH]; intros Ha Hb; [assumption|].
  apply rfind_None_cons in Ha as [Hx Ha].
  rewrite append_cons. apply rfind_None_cons. auto.
Qed.

Lemma basename_sep_free (p : string) : rfind sep (basename p) = None.
Proof.
  unfold basename. destruct (rfind sep p) as [i|] eqn:E; [|assumption].
  now apply rfind_drop.
Qed.

Lemma splitext_app (p : string) : fst (splitext p) +:+ snd (splitext p) = p.
Proof.
  unfold splitext. destruct (rfind extsep p) as [d|].
  - destruct (_ && _); simpl; [apply take_drop | apply append_nil_r].
  - apply append_nil_r.
Qed.

(** The extension is empty or starts with the dot. *)
Lemma splitext_ext (p : string) :
  snd (splitext p) = "" \/ exists r, snd (splitext p) = String extsep r.
Proof.
  unfold splitext. destruct (rfind extsep p) as [d|] eqn:E; [|now left].
  destruct (_ && _); simpl; [|now left].
  right. now apply rfind_Some_drop.
Qed.

Lemma splitext_sep_free (p : string) :
  rfind sep p = None -> rfind sep (fst (splitext p)) = None.
Proof.
  intros H. unfold splitext. destruct (rfind extsep p) as [d|]; [|assumption].
  destruct (_ && _); simpl; [|assumption].
  now apply rfind_take_None.
Qed.

Lemma sep_free_not_abs (x : string) :
  rfind sep x = None -> startswith_sep x = false.
Proof.
  destruct x as [|a r]; [reflexivity|].
  intros H. apply rfind_None_cons in H as [Ha _]. exact Ha.
Qed.

End os_path_facts.

(** The names written into the output folder. *)
Section output_paths.
Import os_path os_path_facts.

Lemma base_name_sep_free (p : string) : rfind sep (base_name p) = None.
Proof. apply splitext_sep_free, basename_sep_free. Qed.

Lemma basename_split (p : string) :
  basename p = base_name p +:+ snd (splitext (basename p)).
Proof. symmetry. apply splitext_app. Qed.

Lemma join_output (x : string) :
  rfind sep x = None -> join OUTPUT_FOLDER x = "labelme_output/" +:+ x.
Proof.
  intros H. unfold join. now rewrite (sep_free_not_abs x H).
Qed.

Lemma parent_output (x : string) :
  rfind sep x = None -> parent ("labelme_output/" +:+ x) = OUTPUT_FOLDER.
Proof.
  intros H. unfold parent. rewrite !append_cons, append_nil.
  simpl. now rewrite H.
Qed.

Lemma basename_output (x : string) :
  rfind sep x = None -> basename ("labelme_output/" +:+ x) = x.
Proof.
  intros H. unfold basename. rewrite !append_cons, append_nil.
  simpl. now rewrite H.
Qed.

Lemma output_neq_folder (x : string) : "labelme_output/" +:+ x <> OUTPUT_FOLDER.
Proof. discriminate. Qed.

Lemma output_inj (x y : string) :
  "labelme_output/" +:+ x = "labelme_output/" +:+ y -> x = y.
Proof. apply app_inv_head. Qed.

Lemma sep_free_suffix (a b : string) :
  rfind sep b = None -> rfind sep (base_name a +:+ b) = None.
Proof. intros H. apply rfind_app_None; [apply base_name_sep_free | exact H]. Qed.

Lemma output_image_path_eq (p : string) :
  output_image_path p = "labelme_output/" +:+ base_name p +:+ "_prediction.jpg".
Proof. apply join_output, sep_free_suffix. reflexivity. Qed.

Lemma json_filename_eq (p : string) :
  json_filename p = "labelme_output/" +:+ base_name p +:+ ".json".
Proof. apply join_output, sep_free_suffix. reflexivity. Qed.

Lemma image_copy_path_eq (p : string) :
  image_copy_path p = "labelme_output/" +:+ basename p.
Proof. apply join_output, basename_sep_free. Qed.

Lemma preview_neq_json (p : string) : output_image_path p <> json_filename p.
Proof.
  rewrite output_image_path_eq, json_filename_eq. intros H.
  apply output_inj, app_inv_head in H. discriminate.
Qed.

Lemma copy_neq_preview (p : string) : image_copy_path p <> output_image_path p.
Proof.
  rewrite output_image_path_eq, image_copy_path_eq, (basename_split p).
  intros H. apply output_inj, app_inv_head in H.
  destruct (splitext_ext (basename p)) as [E|[r E]]; rewrite E in H;
    discriminate.
Qed.

Lemma copy_neq_json (p : string) :
  snd (splitext (basename p)) <> ".json" -> image_copy_path p <> json_filename p.
Proof.
  intros Hext. rewrite json_filename_eq, image_copy_path_eq, (basename_split p).
  intros H. apply output_inj, app_inv_head in H. contradiction.
Qed.

End output_paths.

(** ** Running the monad *)

Section running.
Context {A B : Type}.

Lemma bind_Ok (m : M A) (k : A -> M B) (w w1 : World) (a : A) :
  m w = (Ok a, w1) -> bind m k w = k a w1.
Proof. intros H. unfold bind. now rewrite H. Qed.


Lemma bind_Ok_inv (m : M A) (k : A -> M B) (w w' : World) (b : B) :
  bind m k w = (Ok b, w') ->
  exists a w1, m w = (Ok a, w1) /\ k a w1 = (Ok b, w').
Proof.
  unfold bind. destruct (m w) as [[a|e] w1]; [eauto | discriminate].
Qed.

Lemma lift_Ok_inv (r : exn + A) (w w' : World) (a : A) :
  lift r w = (Ok a, w') -> r = inr a /\ w' = w.
Proof. destruct r; simpl; unfold raise, ret; intros H; now inversion H. Qed.

End running.

(** ** Writing files *)

Section files.

(** A successful write puts the data at the path and touches nothing
    but the path and its directory's listing. *)
Lemma write_file_Ok_inv (path : string) (data : list byte) (w w' : World) (u : unit) :
  write_file path data w = (Ok u, w') ->
  fs w' !! path = Some (File data) /\
  (forall q, q <> path -> q <> parent path -> fs w' !! q = fs w !! q) /\
  (forall es, fs w !! parent path = Some (Dir es) ->
              exists es', fs w' !! parent path = Some (Dir es')) /\
  (parent path <> "" -> exists es, fs w !! parent path = Some (Dir es)) /\
  class_colors w' = class_colors w /\
  stdout w' = stdout w /\
  requests_sent w' = requests_sent w.
Proof.
  unfold write_file. intros H.
  assert (forall es, fs w !! path <> Some (Dir es)) as Hnodir.
  { intros es E. rewrite E in H. discriminate. }
  assert (match fs w !! path with Some (Dir _) => False | _ => True end) as Hp.
  { destruct (fs w !! path) as [[|es]|]; try exact I. now apply (Hnodir es). }
  destruct (String.eqb_spec (parent path) "") as [Hd|Hd].
  - assert (w' = set_fs (<[path:=File data]> (fs w)) w) as ->.
    { destruct (fs w !! path) as [[|]|]; now inversion H. }
    simpl. split; [apply lookup_insert_eq|].
    split; [intros q Hq _; now rewrite lookup_insert_ne|].
    split; [|split; [contradiction|auto]].
    intros es Hes. exists es. rewrite lookup_insert_ne; [assumption|].
    intros E. apply (Hnodir es). now rewrite E.
  - destruct (fs w !! parent path) as [[|entries]|] eqn:Epar;
      try (destruct (fs w !! path) as [[|]|]; discriminate).
    assert (w' = set_fs (<[path:=File data]>
              (<[parent path:=Dir (add_entry (os_path.basename path) entries)]>
                 (fs w))) w) as ->.
    { destruct (fs w !! path) as [[|]|]; now inversion H. }
    simpl. split; [apply lookup_insert_eq|].
    split; [intros q Hq Hq'; now rewrite !lookup_insert_ne|].
    split; [|split; [eauto|auto]].
    intros es _. eexists. rewrite lookup_insert_ne, lookup_insert_eq; [reflexivity|].
    intros E. apply (Hnodir entries). now rewrite E.
Qed.


Lemma read_file_found (path : string) (data : list byte) (w : World) :
  fs w !! path = Some (File data) -> read_file path w = (Ok data, w).
Proof. intros H. unfold read_file. now rewrite H. Qed.

Lemma read_file_Ok_inv (path : string) (data : list byte) (w w' : World) :
  read_file path w = (Ok data, w') -> fs w !! path = Some (File data) /\ w' = w.
Proof.
  unfold read_file. destruct (fs w !! path) as [[|]|]; intros H; now inversion H.
Qed.

End files.

(** ** The output stage *)

Section saving.
Import os_path os_path_facts.

Lemma print_inv (l : line) (w w' : World) (u : unit) :
  print l w = (Ok u, w') ->
  fs w' = fs w /\ class_colors w' = class_colors w /\
  stdout w' = stdout w ++ [l] /\ requests_sent w' = requests_sent w.
Proof. unfold print. intros H. now inversion H. Qed.

Lemma image_save_Ok_inv (env : Env) (image : Image) (path : string)
    (w w' : World) (u : unit) :
  image_save env image path w = (Ok u, w') ->
  exists jpeg, pil_encode env image = inr jpeg /\
               write_file path jpeg w = (Ok u, w').
Proof.
  unfold image_save. destruct (pil_encode env image) as [e|jpeg]; [|eauto].
  destruct (write_file path [] w) as [[?|?] ?]; discriminate.
Qed.

Lemma shutil_copy_Ok_inv (src dst : string) (w w' : World) (u : unit) :
  shutil_copy src dst w = (Ok u, w') ->
  (forall es, fs w !! dst <> Some (Dir es)) ->
  src <> dst /\
  exists data, fs w !! src = Some (File data) /\
               write_file dst data w = (Ok u, w').
Proof.
  unfold shutil_copy. intros H Hnodir.
  assert ((match fs w !! dst with
           | Some (Dir _) => join dst (basename src)
           | _ => dst
           end) = dst) as E.
  { destruct (fs w !! dst) as [[|es]|] eqn:E; try reflexivity.
    now destruct (Hnodir es). }
  rewrite E in H. clear E.
  destruct (String.eqb_spec src dst) as [->|Hne]; simpl in H.
  - destruct (bool_decide (is_Some (fs w !! dst))) eqn:Eb; [discriminate|].
    apply bind_Ok_inv in H as (data & w1 & Hr & _).
    apply read_file_Ok_inv in Hr as [Hr _].
    apply bool_decide_eq_false in Eb. destruct Eb. now rewrite Hr.
  - split; [assumption|].
    apply bind_Ok_inv in H as (data & w1 & Hr & H).
    apply read_file_Ok_inv in Hr as [Hr ->]. eauto.
Qed.

Lemma generate_labelme_json_found (image_path : string) (shapes : list json)
    (width height : Z) (data : list byte) (w : World) :
  fs w !! image_path = Some (File data) ->
  generate_labelme_json image_path shapes width height w =
  (Ok (JDict [ ("version", JStr "5.0.1");
               ("flags", JDict []);
               ("shapes", JList shapes);
               ("imagePath", JStr (basename image_path));
               ("imageData", JStr (base64.b64encode data));
               ("imageWidth", JInt width);
               ("imageHeight", JInt height) ]), w).
Proof.
  intros H. unfold generate_labelme_json.
  now rewrite (bind_Ok _ _ _ _ _ (read_file_found _ _ _ H)).
Qed.

(** The input is not its own preview. *)
Lemma input_neq_preview (p : string) : p <> output_image_path p.
Proof.
  rewrite output_image_path_eq. intros E.
  assert (basename p = base_name p +:+ "_prediction.jpg") as Hb.
  { rewrite E at 1. apply basename_output, sep_free_suffix. reflexivity. }
  rewrite (basename_split p) in Hb at 1. apply app_inv_head in Hb.
  destruct (splitext_ext (basename p)) as [E'|[r E']]; rewrite E' in Hb;
    discriminate.
Qed.

(** An input that is its own annotation file is also its own copy. *)
Lemma input_eq_json_copy (p : string) :
  p = json_filename p -> p = image_copy_path p.
Proof.
  rewrite json_filename_eq, image_copy_path_eq. intros E.
  assert (basename p = base_name p +:+ ".json") as Hb.
  { rewrite E at 1. apply basename_output, sep_free_suffix. reflexivity. }
  now rewrite Hb.
Qed.

Lemma parent_output_image_path (p : string) :
  parent (output_image_path p) = OUTPUT_FOLDER.
Proof.
  rewrite output_image_path_eq. apply parent_output, sep_free_suffix. reflexivity.
Qed.

Lemma parent_json_filename (p : string) :
  parent (json_filename p) = OUTPUT_FOLDER.
Proof.
  rewrite json_filename_eq. apply parent_output, sep_free_suffix. reflexivity.
Qed.

Lemma parent_image_copy_path (p : string) :
  parent (image_copy_path p) = OUTPUT_FOLDER.
Proof. rewrite image_copy_path_eq. apply parent_output, basename_sep_free. Qed.

Lemma output_image_path_neq_folder (p : string) :
  output_image_path p <> OUTPUT_FOLDER.
Proof. rewrite output_image_path_eq. apply output_neq_folder. Qed.

Lemma json_filename_neq_folder (p : string) : json_filename p <> OUTPUT_FOLDER.
Proof. rewrite json_filename_eq. apply output_neq_folder. Qed.

Lemma image_copy_path_neq_folder (p : string) :
  image_copy_path p <> OUTPUT_FOLDER.
Proof. rewrite image_copy_path_eq. apply output_neq_folder. Qed.

(** What a completed output stage leaves behind. *)
Lemma save_outputs_Ok_inv (env : Env) (p : string) (image : Image)
    (shapes : list json) (w w' : World) (data : list byte) (u : unit) :
  save_outputs env p image shapes w = (Ok u, w') ->
  fs w !! p = Some (File data) ->
  (forall es, fs w !! image_copy_path p <> Some (Dir es)) ->
  exists jpeg doc,
    pil_encode env image = inr jpeg /\
    generate_labelme_json p shapes (fst (im_size image)) (snd (im_size image)) w
      = (Ok doc, w) /\
    fs w' !! output_image_path p = Some (File jpeg) /\
    (snd (splitext (basename p)) <> ".json" ->
     fs w' !! json_filename p = Some (File (json_dump env doc))) /\
    fs w' !! image_copy_path p = Some (File data) /\
    fs w' !! p = Some (File data) /\
    class_colors w' = class_colors w /\
    stdout w' = stdout w ++ [ PrintSavedPreview (output_image_path p);
                              PrintSavedJson (json_filename p);
                              PrintCopied (image_copy_path p) ].
Proof.
  intros H Hin Hcopy. unfold save_outputs in H.
  (* the preview *)
  apply bind_Ok_inv in H as (u1 & w1 & Hsave & H).
  apply image_save_Ok_inv in Hsave as (jpeg & Henc & Hw1).
  apply write_file_Ok_inv in Hw1
    as (Hprev1 & Hrest1 & _ & Hpar1 & Hcc1 & Hout1 & _).
  rewrite parent_output_image_path in Hrest1, Hpar1.
  destruct Hpar1 as [es0 Hfolder]; [discriminate|].
  assert (p <> OUTPUT_FOLDER) as Hp_out by (intros ->; congruence).
  apply bind_Ok_inv in H as (u2 & w2 & Hp2 & H).
  apply print_inv in Hp2 as (Hfs2 & Hcc2 & Hout2 & _).
  (* the annotation *)
  assert (fs w2 !! p = Some (File data)) as Hin2.
  { rewrite Hfs2, Hrest1; [exact Hin | apply input_neq_preview | exact Hp_out]. }
  apply bind_Ok_inv in H as (doc & w3 & Hgen & H).
  rewrite (generate_labelme_json_found _ _ _ _ _ _ Hin2) in Hgen.
  injection Hgen as <- <-.
  apply bind_Ok_inv in H as (u3 & w4 & Hw4 & H).
  apply write_file_Ok_inv in Hw4 as (Hjson4 & Hrest4 & _ & _ & Hcc4 & Hout4 & _).
  rewrite parent_json_filename in Hrest4.
  apply bind_Ok_inv in H as (u4 & w5 & Hp5 & H).
  apply print_inv in Hp5 as (Hfs5 & Hcc5 & Hout5 & _).
  (* the copy *)
  apply bind_Ok_inv in H as (u5 & w6 & Hcp & H).
  apply print_inv in H as (Hfs7 & Hcc7 & Hout7 & _).
  assert (forall es, fs w5 !! image_copy_path p <> Some (Dir es)) as Hnodir5.
  { intros es. rewrite Hfs5.
    destruct (decide (image_copy_path p = json_filename p)) as [E|E].
    - rewrite E, Hjson4. discriminate.
    - rewrite Hrest4, Hfs2, Hrest1;
        auto using copy_neq_preview, image_copy_path_neq_folder. }
  apply shutil_copy_Ok_inv in Hcp as (Hne & data' & Hsrc & Hw6); [|exact Hnodir5].
  assert (p <> json_filename p) as Hpj.
  { intros E. apply Hne. now apply input_eq_json_copy. }
  rewrite Hfs5, Hrest4, Hin2 in Hsrc by assumption.
  injection Hsrc as <-.
  apply write_file_Ok_inv in Hw6 as (Hcopy6 & Hrest6 & _ & _ & Hcc6 & Hout6 & _).
  rewrite parent_image_copy_path in Hrest6.
  eexists jpeg, _. split; [exact Henc|].
  split; [apply generate_labelme_json_found, Hin|].
  split; [|split; [|split; [|split; [|split]]]].
  - rewrite Hfs7, Hrest6, Hfs5, Hrest4, Hfs2;
      auto using preview_neq_json, output_image_path_neq_folder.
    intros E. now apply (copy_neq_preview p).
  - intros Hext.
    rewrite Hfs7, Hrest6, Hfs5;
      auto using json_filename_neq_folder.
    intros E. now apply (copy_neq_json p Hext).
  - now rewrite Hfs7.
  - rewrite Hfs7, Hrest6, Hfs5, Hrest4; assumption.
  - congruence.
  - rewrite Hout7, Hout6, Hout5, Hout4, Hout2, Hout1.
    now rewrite <- !app_assoc.
Qed.



End saving.

(** ** The annotation loop *)

Section annotating.

Lemma keeps_ret {A} (a : A) : keeps (ret a).
Proof. intros w. auto. Qed.

Lemma keeps_lift {A} (r : exn + A) : keeps (lift r).
Proof. intros w. destruct r; simpl; auto. Qed.

Lemma keeps_bind {A B} (m : M A) (k : A -> M B) :
  keeps m -> (forall a, keeps (k a)) -> keeps (bind m k).
Proof.
  intros Hm Hk w. unfold bind. specialize (Hm w).
  destruct (m w) as [[a|e] w1]; simpl in *; [|exact Hm].
  destruct (Hk a w1) as (-> & -> & ->). exact Hm.
Qed.

Lemma keeps_get_color_for_class (class_name : json) :
  keeps (get_color_for_class class_name).
Proof.
  unfold get_color_for_class. apply keeps_bind; [apply keeps_lift|].
  intros k w. destruct (lookup_color k (class_colors w)); [simpl; auto|].
  destruct (color_palette !! _); simpl; auto.
Qed.

Lemma keeps_draw (env : Env) (image : Image) (op : draw_op) :
  keeps (draw env image op).
Proof. intros w. unfold draw. destruct (pil_draw env image op); simpl; auto. Qed.

Lemma keeps_annotate_one (env : Env) (font : Font) (pred : json)
    (st : Image * list json) :
  keeps (annotate_one env font pred st).
Proof.
  unfold annotate_one.
  repeat (apply keeps_bind;
          [ first [apply keeps_lift | apply keeps_get_color_for_class
                  | apply keeps_draw] | intros ? ]).
  apply keeps_ret.
Qed.

Lemma keeps_annotate (env : Env) (font : Font) (preds : list json) :
  forall st, keeps (annotate env font preds st).
Proof.
  induction preds as [|pred rest IH]; intros st; simpl.
  - apply keeps_ret.
  - apply keeps_bind; [apply keeps_annotate_one | exact IH].
Qed.



Lemma draw_Ok_inv (env : Env) (image image' : Image) (op : draw_op)
    (w w' : World) :
  draw env image op w = (Ok image', w') ->
  pil_draw env image op = None /\
  image' = mkImage (im_source image) (im_size image) (im_drawn image ++ [op]) /\
  w' = w.
Proof.
  unfold draw. destruct (pil_draw env image op); intros H; now inversion H.
Qed.

(** Drawing changes neither what the image was decoded from nor its
    size. *)
Lemma annotate_one_image (env : Env) (font : Font) (pred : json)
    (st st' : Image * list json) (w w' : World) :
  annotate_one env font pred st w = (Ok st', w') ->
  im_source (fst st') = im_source (fst st) /\ im_size (fst st') = im_size (fst st).
Proof.
  unfold annotate_one. intros H.
  repeat match type of H with
         | bind _ _ _ = _ => apply bind_Ok_inv in H as (? & ? & ? & H)
         end.
  repeat match goal with
         | E : draw _ _ _ _ = (Ok _, _) |- _ =>
             apply draw_Ok_inv in E as (_ & -> & ->)
         end.
  injection H as <- <-. auto.
Qed.

Lemma annotate_image (env : Env) (font : Font) (preds : list json) :
  forall st st' w w',
    annotate env font preds st w = (Ok st', w') ->
    im_source (fst st') = im_source (fst st) /\ im_size (fst st') = im_size (fst st).
Proof.
  induction preds as [|pred rest IH]; intros st st' w w' H; simpl in H.
  - injection H as <- <-. auto.
  - apply bind_Ok_inv in H as (st1 & w1 & Hone & H).
    apply annotate_one_image in Hone as [E1 E2].
    apply IH in H as [E3 E4]. split; congruence.
Qed.

End annotating.

(** ** One image *)

Lemma resp_json_Ok_inv (resp : Response) (j : json) (w w' : World) :
  resp_json resp w = (Ok j, w') -> body resp = Some j /\ w' = w.
Proof.
  unfold resp_json. destruct (body resp); intros H; now inversion H.
Qed.

Lemma Image_open_Ok_inv (env : Env) (path : string) (image : Image) (w w' : World) :
  Image_open env path w = (Ok image, w') ->
  exists data size,
    fs w !! path = Some (File data) /\ pil_decode env data = inr size /\
    image = mkImage data size [] /\ w' = w.
Proof.
  unfold Image_open. intros H.
  apply bind_Ok_inv in H as (data & w1 & [Hr ->]%read_file_Ok_inv & H).
  apply bind_Ok_inv in H as (size & w2 & [Hd ->]%lift_Ok_inv & H).
  injection H as <- <-. eauto 6.
Qed.

Section one_image.
Import os_path os_path_facts.

Variable env : Env.
Variables (image_path prediction_url : string).
Variable headers : list (string * header).
Variable font : Font.

(** The upload request of line 76. *)
Let upload (data : list byte) : request :=
  PostFiles prediction_url headers "image" (basename image_path) "image/jpeg" data.

(** The world once the file is announced and the request sent. *)
Let sent (w : World) : World :=
  mkWorld (fs w) (class_colors w) (stdout w ++ [PrintProcessing image_path])
    (S (requests_sent w)).

Lemma process_image_answered (w : World) (data : list byte) (resp : Response) :
  fs w !! image_path = Some (File data) ->
  http env (requests_sent w) (upload data) = inr resp ->
  process_image env image_path prediction_url headers font w =
  if negb (status_code resp =? 201)
  then print (PrintPredictionFailed image_path (text resp)) (sent w)
  else handle_response env image_path font resp (sent w).
Proof.
  intros Hin Hhttp.
  unfold process_image, bind at 1, print at 1, bind at 1, send_image, try_except,
    bind at 1.
  cbn [fst snd]. unfold read_file at 1. cbn [fs]. rewrite Hin.
  unfold bind at 1, requests_post. cbn [requests_sent fs class_colors stdout].
  fold (upload data). rewrite Hhttp.
  cbv beta iota delta [ret bind sent].
  now destruct (negb (status_code resp =? 201)).
Qed.

Lemma process_image_missing (w : World) :
  fs w !! image_path = None ->
  process_image env image_path prediction_url headers font w =
  (Ok tt, mkWorld (fs w) (class_colors w)
            (stdout w ++ [PrintProcessing image_path; PrintImageNotFound image_path])
            (requests_sent w)).
Proof.
  intros Hin.
  unfold process_image, bind at 1, print at 1, bind at 1, send_image, try_except,
    bind at 1.
  unfold read_file at 1. cbn [fs]. rewrite Hin. cbn.
  now rewrite <- app_assoc.
Qed.

(** What a completed [handle_response] went through. *)
Lemma handle_response_Ok_inv (resp : Response) (w w' : World)
    (data : list byte) (u : unit) :
  handle_response env image_path font resp w = (Ok u, w') ->
  fs w !! image_path = Some (File data) ->
  exists j predictions preds size st w1 w2,
    body resp = Some j /\
    py.get j "result" (JList []) = inr predictions /\
    py.iter predictions = inr preds /\
    pil_decode env data = inr size /\
    fs w1 = fs w /\
    class_colors w1 = class_colors w /\
    annotate env font preds (mkImage data size [], []) w1 = (Ok st, w2) /\
    save_outputs env image_path (fst st) (snd st) w2 = (Ok u, w').
Proof.
  unfold handle_response. intros H Hin.
  apply bind_Ok_inv in H as (j & w1 & [Hj ->]%resp_json_Ok_inv & H).
  apply bind_Ok_inv in H as (predictions & w2 & [Hres ->]%lift_Ok_inv & H).
  apply bind_Ok_inv in H as (n & w3 & [Hlen ->]%lift_Ok_inv & H).
  apply bind_Ok_inv in H as (u1 & w4 & (Hfs4 & Hcc4 & _)%print_inv & H).
  apply bind_Ok_inv in H as (j' & w5 & [_ ->]%resp_json_Ok_inv & H).
  apply bind_Ok_inv in H as (info & w6 & [_ ->]%lift_Ok_inv & H).
  apply bind_Ok_inv in H as (u2 & w7 & (Hfs7 & Hcc7 & _)%print_inv & H).
  apply bind_Ok_inv in H as (image & w8 & Hopen & H).
  apply Image_open_Ok_inv in Hopen as (data' & size & Hin' & Hdec & -> & ->).
  rewrite Hfs7, Hfs4, Hin in Hin'. injection Hin' as <-.
  apply bind_Ok_inv in H as (preds & w9 & [Hiter ->]%lift_Ok_inv & H).
  apply bind_Ok_inv in H as (st & w10 & Hann & H).
  exists j, predictions, preds, size, st, w7, w10.
  repeat split; try assumption; congruence.
Qed.

(** What is on disk once an image that got a 201 answer is done. *)
Lemma process_image_done (w w' : World) (data : list byte) (resp : Response) :
  fs w !! image_path = Some (File data) ->
  http env (requests_sent w) (upload data) = inr resp ->
  status_code resp = 201 ->
  (forall es, fs w !! image_copy_path image_path <> Some (Dir es)) ->
  process_image env image_path prediction_url headers font w = (Ok tt, w') ->
  exists j predictions preds size image shapes w1 w2 jpeg doc,
    body resp = Some j /\
    py.get j "result" (JList []) = inr predictions /\
    py.iter predictions = inr preds /\
    pil_decode env data = inr size /\
    class_colors w1 = class_colors w /\
    annotate env font preds (mkImage data size [], []) w1 = (Ok (image, shapes), w2) /\
    pil_encode env image = inr jpeg /\
    generate_labelme_json image_path shapes (fst size) (snd size) w = (Ok doc, w) /\
    fs w' !! output_image_path image_path = Some (File jpeg) /\
    (snd (splitext (basename image_path)) <> ".json" ->
     fs w' !! json_filename image_path = Some (File (json_dump env doc))) /\
    fs w' !! image_copy_path image_path = Some (File data) /\
    fs w' !! image_path = Some (File data) /\
    class_colors w' = class_colors w2.
Proof.
  intros Hin Hhttp H201 Hcopy H.
  rewrite (process_image_answered w data resp Hin Hhttp), H201 in H.
  cbn [Z.eqb Pos.eqb negb] in H.
  apply handle_response_Ok_inv with (data := data) in H; [|exact Hin].
  destruct H as (j & predictions & preds & size & [image shapes] & w1 & w2
                 & Hj & Hres & Hiter & Hdec & Hfs1 & Hcc1 & Hann & Hsave).
  pose proof (keeps_annotate env font preds (mkImage data size [], []) w1)
    as (Hfs2 & _).
  rewrite Hann in Hfs2. cbn [snd] in Hfs2. cbn [sent fs] in Hfs1.
  pose proof (annotate_image _ _ _ _ _ _ _ Hann) as [_ Esize].
  cbn [fst snd] in *.
  apply save_outputs_Ok_inv with (data := data) in Hsave.
  - destruct Hsave as (jpeg & doc & Henc & Hgen & Hprev & Hjson & Hcp & Horig & Hcc & _).
    exists j, predictions, preds, size, image, shapes, w1, w2, jpeg, doc.
    rewrite Esize in Hgen.
    assert (generate_labelme_json image_path shapes (fst size) (snd size) w
            = (Ok doc, w)) as Hgen'.
    { rewrite (generate_labelme_json_found _ _ _ _ data) in Hgen
        by (rewrite Hfs2, Hfs1; exact Hin).
      rewrite (generate_labelme_json_found _ _ _ _ data) by exact Hin.
      now injection Hgen as ->. }
    repeat split; assumption.
  - rewrite Hfs2, Hfs1. exact Hin.
  - intros es. rewrite Hfs2, Hfs1. apply Hcopy.
Qed.

End one_image.

(** ** An answer without detections *)

Section no_detections.
Import os_path os_path_facts.


(** [.get] on what already answered one [.get] cannot fail. *)
Lemma get_again (j v default : json) (k k' : string) (default' : json) :
  py.get j k default = inr v -> exists v', py.get j k' default' = inr v'.
Proof. destruct j; try discriminate. simpl. eauto. Qed.


End no_detections.

Section no_detections_image.
Import os_path os_path_facts.


End no_detections_image.


(** Facts about the concrete folders, by evaluation. *)
Ltac by_evaluation :=
  first [ intros ?; vm_compute; discriminate
        | vm_compute; first [reflexivity | discriminate] ].



(** ** The annotation document *)

(** The run of the examples: [a.jpg] in a prepared folder. *)
Lemma processed_a_jpg :
  processed demo_env "input_images/a.jpg" "/predictionbox" demo_headers DefaultFont
    (prepared [("a.jpg", [x01; x02]%byte)])
    (snd (process_image demo_env "input_images/a.jpg" "/predictionbox" demo_headers
            DefaultFont (prepared [("a.jpg", [x01; x02]%byte)])))
    [x01; x02]%byte (demo_prediction "a.jpg").
Proof.
  unfold processed.
  split; [vm_compute; reflexivity|].
  split; [vm_compute; reflexivity|].
  split; [vm_compute; reflexivity|].
  split; [intros es; vm_compute; discriminate|].
  split; [vm_compute; discriminate|].
  vm_compute. reflexivity.
Defined.

(** C4.  For every processed image the annotation written for it embeds
    the input file: [imageData], base64-decoded, is the file's bytes, and
    the file on disk still has those bytes. *)
Theorem imageData_round_trip (env : Env) (image_path prediction_url : string)
    (headers : list (string * header)) (font : Font) (w w' : World)
    (data : list byte) (resp : Response) :
  processed env image_path prediction_url headers font w w' data resp ->
  exists doc image_data,
    fs w' !! json_filename image_path = Some (File (json_dump env doc)) /\
    py.getitem doc "imageData" = inr (JStr image_data) /\
    base64.b64decode image_data = Some data /\
    fs w' !! image_path = Some (File data).
Proof.
  intros (Hin & Hhttp & H201 & Hcopy & Hext & Hrun).
  destruct (process_image_done env image_path prediction_url headers font
              w w' data resp Hin Hhttp H201 Hcopy Hrun)
    as (j & predictions & preds & size & image & shapes & w1 & w2 & jpeg & doc
        & _ & _ & _ & _ & _ & _ & _ & Hgen & _ & Hjson & _ & Horig & _).
  rewrite (generate_labelme_json_found _ _ _ _ data) in Hgen by exact Hin.
  injection Hgen as <-.
  eexists _, _. split; [exact (Hjson Hext)|].
  split; [reflexivity|].
  split; [apply base64_facts.b64decode_b64encode | exact Horig].
Qed.

Lemma imageData_round_trip_witness :
  exists doc image_data,
    fs (snd (process_image demo_env "input_images/a.jpg" "/predictionbox"
               demo_headers DefaultFont (prepared [("a.jpg", [x01; x02]%byte)])))
      !! json_filename "input_images/a.jpg"
    = Some (File (json_dump demo_env doc)) /\
    py.getitem doc "imageData" = inr (JStr image_data) /\
    base64.b64decode image_data = Some [x01; x02]%byte /\
    fs (snd (process_image demo_env "input_images/a.jpg" "/predictionbox"
               demo_headers DefaultFont (prepared [("a.jpg", [x01; x02]%byte)])))
      !! "input_images/a.jpg"
    = Some (File [x01; x02]%byte).
Proof.
  exact (imageData_round_trip _ _ _ _ _ _ _ _ _ processed_a_jpg).
Defined.



(** ** Files with one stem *)

Lemma processed_a_jpg_then_a_png :
  processed demo_env "input_images/a.jpg" "/predictionbox" demo_headers DefaultFont
    two_stems_w0 two_stems_w1 [x01; x02]%byte (demo_prediction "a.jpg") /\
  processed demo_env "input_images/a.png" "/predictionbox" demo_headers DefaultFont
    two_stems_w1 two_stems_w2 [x03]%byte (demo_prediction "a.png").
Proof.
  unfold processed.
  split; (split; [by_evaluation|]); (split; [by_evaluation|]);
    (split; [by_evaluation|]); (split; [by_evaluation|]);
    (split; by_evaluation).
Defined.

(** C10.  The preview and annotation paths are made from the stem alone.
    Two inputs with one stem (say [a.jpg] and [a.png]) have the same
    preview path and the same annotation path; when both are processed,
    one after the other, what the first left at the two paths is replaced
    by the second's preview and annotation. *)
Theorem equal_stems_overwrite (env : Env) (prediction_url : string)
    (headers : list (string * header)) (font : Font)
    (first second : string) (w0 w1 w2 : World) (data1 data2 : list byte)
    (resp1 resp2 : Response) :
  base_name first = base_name second ->
  processed env first prediction_url headers font w0 w1 data1 resp1 ->
  processed env second prediction_url headers font w1 w2 data2 resp2 ->
  output_image_path first = output_image_path second /\
  json_filename first = json_filename second /\
  exists image1 jpeg1 doc1 image2 jpeg2 doc2,
    (* after the first: its preview and annotation *)
    im_source image1 = data1 /\
    pil_encode env image1 = inr jpeg1 /\
    fs w1 !! output_image_path first = Some (File jpeg1) /\
    py.getitem doc1 "imagePath" = inr (JStr (os_path.basename first)) /\
    fs w1 !! json_filename first = Some (File (json_dump env doc1)) /\
    (* after the second: at the same paths, the second's *)
    im_source image2 = data2 /\
    pil_encode env image2 = inr jpeg2 /\
    fs w2 !! output_image_path first = Some (File jpeg2) /\
    py.getitem doc2 "imagePath" = inr (JStr (os_path.basename second)) /\
    fs w2 !! json_filename first = Some (File (json_dump env doc2)).
Proof.
  intros Hstem (Hin1 & Hhttp1 & H201a & Hcopy1 & Hext1 & Hrun1)
         (Hin2 & Hhttp2 & H201b & Hcopy2 & Hext2 & Hrun2).
  assert (output_image_path first = output_image_path second) as Eprev
    by (unfold output_image_path; now rewrite Hstem).
  assert (json_filename first = json_filename second) as Ejson
    by (unfold json_filename; now rewrite Hstem).
  split; [exact Eprev|]. split; [exact Ejson|].
  destruct (process_image_done env first prediction_url headers font
              w0 w1 data1 resp1 Hin1 Hhttp1 H201a Hcopy1 Hrun1)
    as (? & ? & ? & size1 & image1 & shapes1 & ? & ? & jpeg1 & doc1
        & _ & _ & _ & _ & _ & Hann1 & Henc1 & Hgen1 & Hprev1 & Hjson1 & _).
  destruct (process_image_done env second prediction_url headers font
              w1 w2 data2 resp2 Hin2 Hhttp2 H201b Hcopy2 Hrun2)
    as (? & ? & ? & size2 & image2 & shapes2 & ? & ? & jpeg2 & doc2
        & _ & _ & _ & _ & _ & Hann2 & Henc2 & Hgen2 & Hprev2 & Hjson2 & _).
  apply annotate_image in Hann1 as [Hsrc1 _].
  apply annotate_image in Hann2 as [Hsrc2 _].
  rewrite (generate_labelme_json_found _ _ _ _ data1) in Hgen1 by exact Hin1.
  rewrite (generate_labelme_json_found _ _ _ _ data2) in Hgen2 by exact Hin2.
  injection Hgen1 as Edoc1. injection Hgen2 as Edoc2.
  exists image1, jpeg1, doc1, image2, jpeg2, doc2.
  split; [exact Hsrc1|]. split; [exact Henc1|]. split; [exact Hprev1|].
  split; [now rewrite <- Edoc1|]. split; [exact (Hjson1 Hext1)|].
  split; [exact Hsrc2|]. split; [exact Henc2|].
  split; [rewrite Eprev; exact Hprev2|].
  split; [now rewrite <- Edoc2|].
  rewrite Ejson. exact (Hjson2 Hext2).
Qed.

Lemma equal_stems_overwrite_witness :
  output_image_path "input_images/a.jpg" = output_image_path "input_images/a.png" /\
  json_filename "input_images/a.jpg" = json_filename "input_images/a.png" /\
  exists image1 jpeg1 doc1 image2 jpeg2 doc2,
    im_source image1 = [x01; x02]%byte /\
    pil_encode demo_env image1 = inr jpeg1 /\
    fs two_stems_w1 !! output_image_path "input_images/a.jpg" = Some (File jpeg1) /\
    py.getitem doc1 "imagePath" = inr (JStr (os_path.basename "input_images/a.jpg")) /\
    fs two_stems_w1 !! json_filename "input_images/a.jpg"
    = Some (File (json_dump demo_env doc1)) /\
    im_source image2 = [x03]%byte /\
    pil_encode demo_env image2 = inr jpeg2 /\
    fs two_stems_w2 !! output_image_path "input_images/a.jpg" = Some (File jpeg2) /\
    py.getitem doc2 "imagePath" = inr (JStr (os_path.basename "input_images/a.png")) /\
    fs two_stems_w2 !! json_filename "input_images/a.jpg"
    = Some (File (json_dump demo_env doc2)).
Proof.
  exact (equal_stems_overwrite demo_env "/predictionbox" demo_headers DefaultFont
           "input_images/a.jpg" "input_images/a.png"
           two_stems_w0 two_stems_w1 two_stems_w2 _ _ _ _ eq_refl
           (proj1 processed_a_jpg_then_a_png) (proj2 processed_a_jpg_then_a_png)).
Defined.

(** ** Files that are skipped, and failures that are not *)

Section skipping.
Import os_path.

Variable env : Env.
Variables (image_path prediction_url : string).
Variable headers : list (string * header).
Variable font : Font.

Let upload (data : list byte) : request :=
  PostFiles prediction_url headers "image" (basename image_path) "image/jpeg" data.

Lemma process_image_rejected (w : World) (data : list byte) (resp : Response) :
  fs w !! image_path = Some (File data) ->
  http env (requests_sent w) (upload data) = inr resp ->
  status_code resp <> 201 ->
  process_image env image_path prediction_url headers font w =
  (Ok tt, mkWorld (fs w) (class_colors w)
            (stdout w ++ [ PrintProcessing image_path;
                           PrintPredictionFailed image_path (text resp) ])
            (S (requests_sent w))).
Proof.
  intros Hin Hhttp Hstatus.
  rewrite (process_image_answered env image_path prediction_url headers font
             w data resp Hin Hhttp).
  destruct (Z.eqb_spec (status_code resp) 201) as [|_]; [contradiction|].
  cbn [negb]. unfold print. cbn [fs class_colors stdout requests_sent].
  now rewrite <- app_assoc.
Qed.



End skipping.

Lemma process_all_cons (env : Env) (image_file : string) (rest : list string)
    (prediction_url : string) (headers : list (string * header)) (font : Font) :
  process_all env (image_file :: rest) prediction_url headers font =
  bind (process_image env (os_path.join INPUT_FOLDER image_file) prediction_url
          headers font)
       (fun _ => process_all env rest prediction_url headers font).
Proof. reflexivity. Qed.

(** ** Fields of the response *)

Section fields.
Import os_path.




Variable env : Env.
Variables (image_path prediction_url : string).
Variable headers : list (string * header).
Variable font : Font.

Let upload (data : list byte) : request :=
  PostFiles prediction_url headers "image" (basename image_path) "image/jpeg" data.

(** Whatever the loop body raises on the first record leaves
    [process_image], with nothing written. *)
Lemma process_image_first_record_raises (w : World) (data : list byte)
    (resp : Response) (j pred : json) (rest : list json) (size : Z * Z) (e : exn) :
  fs w !! image_path = Some (File data) ->
  http env (requests_sent w) (upload data) = inr resp ->
  status_code resp = 201 ->
  body resp = Some j ->
  py.get j "result" (JList []) = inr (JList (pred :: rest)) ->
  pil_decode env data = inr size ->
  (forall w1, exists w2,
     annotate_one env font pred (mkImage data size [], []) w1 = (Raise e, w2) /\
     fs w2 = fs w1) ->
  exists w',
    process_image env image_path prediction_url headers font w = (Raise e, w') /\
    fs w' = fs w.
Proof.
  intros Hin Hhttp H201 Hbody Hres Hdec Hone.
  destruct (get_again _ _ _ _ "image_info" (JList []) Hres) as [info Hinfo].
  rewrite (process_image_answered env image_path prediction_url headers font
             w data resp Hin Hhttp), H201.
  cbn [Z.eqb Pos.eqb negb].
  unfold handle_response, bind at 1, resp_json. rewrite Hbody.
  unfold ret at 1. cbv beta iota.
  unfold bind at 1. rewrite Hres. unfold lift at 1, ret at 1. cbv beta iota.
  unfold bind at 1, lift at 1, py.len, ret at 1. cbv beta iota.
  unfold bind at 1, print at 1. cbv beta iota.
  unfold bind at 1, ret at 1. cbv beta iota.
  unfold bind at 1. rewrite Hinfo. unfold lift at 1, ret at 1. cbv beta iota.
  unfold bind at 1, print at 1. cbv beta iota.
  unfold bind at 1, Image_open, bind at 1, read_file.
  cbn [fs]. rewrite Hin. unfold bind at 1, lift at 1. rewrite Hdec.
  unfold ret at 1 2. cbv beta iota.
  unfold bind at 1, lift at 1, py.iter, ret at 1. cbv beta iota.
  unfold bind at 1. cbn [annotate]. unfold bind at 1.
  match goal with
  | |- context [annotate_one env font pred _ ?W] =>
      destruct (Hone W) as (w2 & -> & Hfs)
  end.
  exists w2. split; [reflexivity | exact Hfs].
Qed.




End fields.





(** ** Failures of one file and the loop *)

(** C6.  An image whose prediction request is answered with a status
    other than 201 produces no file: [process_image] prints the failure
    and returns with the file system as it was, and the loop goes on with
    the next file. *)
Theorem non_201_skips_the_image (env : Env) (image_file : string)
    (rest : list string) (prediction_url : string)
    (headers : list (string * header)) (font : Font) (w : World)
    (data : list byte) (resp : Response) :
  fs w !! os_path.join INPUT_FOLDER image_file = Some (File data) ->
  http env (requests_sent w)
    (PostFiles prediction_url headers "image"
       (os_path.basename (os_path.join INPUT_FOLDER image_file)) "image/jpeg" data)
    = inr resp ->
  status_code resp <> 201 ->
  exists w',
    process_image env (os_path.join INPUT_FOLDER image_file) prediction_url
      headers font w = (Ok tt, w') /\
    fs w' = fs w /\
    stdout w' = stdout w ++
      [ PrintProcessing (os_path.join INPUT_FOLDER image_file);
        PrintPredictionFailed (os_path.join INPUT_FOLDER image_file) (text resp) ] /\
    process_all env (image_file :: rest) prediction_url headers font w =
    process_all env rest prediction_url headers font w'.
Proof.
  intros Hin Hhttp Hstatus.
  pose proof (process_image_rejected env _ prediction_url headers font w data resp
                Hin Hhttp Hstatus) as Hrun.
  eexists. split; [exact Hrun|]. split; [reflexivity|]. split; [reflexivity|].
  rewrite process_all_cons. now rewrite (bind_Ok _ _ _ _ _ Hrun).
Qed.

Lemma non_201_skips_the_image_witness :
  exists w',
    process_image demo_env (os_path.join INPUT_FOLDER "b.png") "/predictionbox"
      demo_headers DefaultFont refused_first = (Ok tt, w') /\
    fs w' = fs refused_first /\
    stdout w' = stdout refused_first ++
      [ PrintProcessing (os_path.join INPUT_FOLDER "b.png");
        PrintPredictionFailed (os_path.join INPUT_FOLDER "b.png")
          (text (demo_prediction "b.png")) ] /\
    process_all demo_env ["b.png"; "a.jpg"] "/predictionbox" demo_headers DefaultFont
      refused_first =
    process_all demo_env ["a.jpg"] "/predictionbox" demo_headers DefaultFont w'.
Proof.
  apply (non_201_skips_the_image demo_env "b.png" ["a.jpg"] "/predictionbox"
           demo_headers DefaultFont refused_first [x03]%byte (demo_prediction "b.png"));
    by_evaluation.
Defined.




(** ** Logging in *)

Section login.

Variable env : Env.
Variable w : World.
Variable resp : Response.
Hypothesis Hlogin : http env (requests_sent w) login_request = inr resp.


Lemma main_without_token (d : list (string * json)) :
  status_code resp = 200 ->
  body resp = Some (JDict d) ->
  match py.dict_lookup d "access_token" with
  | Some token => py.truthy token = false
  | None => True
  end ->
  main env w = (Ok tt, gave_up w PrintTokenNotFound).
Proof.
  intros Hstatus Hbody Htoken.
  unfold main, bind at 1, print at 1. cbv beta iota zeta.
  unfold bind at 1, requests_post. cbn [requests_sent fs class_colors stdout].
  fold login_request. rewrite Hlogin, Hstatus. cbn [Z.eqb Pos.eqb negb].
  unfold bind at 1, resp_json. rewrite Hbody. unfold ret at 1. cbv beta iota.
  unfold bind at 1, lift at 1, py.get. unfold ret at 1. cbv beta iota.
  assert (py.truthy (match py.dict_lookup d "access_token" with
                     | Some x => x
                     | None => JNull
                     end) = false) as ->.
  { destruct (py.dict_lookup d "access_token"); [exact Htoken | reflexivity]. }
  cbn [negb]. unfold print, gave_up.
  cbn [fs class_colors stdout requests_sent].
  now rewrite <- app_assoc.
Qed.

End login.



(** C9.  A 200 login whose [access_token] is falsy (the empty string,
    [None], ...) aborts the run exactly as one without the field: the
    same lines are printed and [main] returns in the same state. *)
Theorem falsy_token_aborts_like_missing (env : Env) (w : World) (resp : Response)
    (d : list (string * json)) (token : json) :
  http env (requests_sent w) login_request = inr resp ->
  status_code resp = 200 ->
  body resp = Some (JDict d) ->
  py.dict_lookup d "access_token" = Some token ->
  py.truthy token = false ->
  main env w = (Ok tt, gave_up w PrintTokenNotFound) /\
  forall env' resp' d',
    http env' (requests_sent w) login_request = inr resp' ->
    status_code resp' = 200 ->
    body resp' = Some (JDict d') ->
    py.dict_lookup d' "access_token" = None ->
    main env' w = main env w.
Proof.
  intros Hlogin Hstatus Hbody Htoken Hfalsy.
  assert (main env w = (Ok tt, gave_up w PrintTokenNotFound)) as Hrun.
  { apply (main_without_token env w resp Hlogin d Hstatus Hbody).
    now rewrite Htoken. }
  split; [exact Hrun|].
  intros env' resp' d' Hlogin' Hstatus' Hbody' Hnone. rewrite Hrun.
  apply (main_without_token env' w resp' Hlogin' d' Hstatus' Hbody').
  now rewrite Hnone.
Qed.

Lemma falsy_token_aborts_like_missing_witness :
  main (service (mkResponse 200 "" (Some (JDict [("access_token", JStr "")]))))
       undecodable_first
  = (Ok tt, gave_up undecodable_first PrintTokenNotFound) /\
  forall env' resp' d',
    http env' (requests_sent undecodable_first) login_request = inr resp' ->
    status_code resp' = 200 ->
    body resp' = Some (JDict d') ->
    py.dict_lookup d' "access_token" = None ->
    main env' undecodable_first =
    main (service (mkResponse 200 "" (Some (JDict [("access_token", JStr "")]))))
         undecodable_first.
Proof.
  apply (falsy_token_aborts_like_missing
           (service (mkResponse 200 "" (Some (JDict [("access_token", JStr "")]))))
           undecodable_first
           (mkResponse 200 "" (Some (JDict [("access_token", JStr "")])))
           [("access_token", JStr "")] (JStr "")); reflexivity.
Defined.

(** The same with [null] for the token. *)
Example null_token_aborts :
  main (service (mkResponse 200 "" (Some (JDict [("access_token", JNull)]))))
       undecodable_first
  = (Ok tt, gave_up undecodable_first PrintTokenNotFound).
Proof. by_evaluation. Qed.

(** ** The files [main] discovers

    [main] passes [process_image] the paths [INPUT_FOLDER/f] for the names
    [f] that end in [.png], [.jpg] or [.jpeg].  Such a path is never named
    [*.json] and never lies where its own copy goes, so the two side
    conditions of [processed] and [output_ready] hold for it. *)

Section discovered.
Import os_path os_path_facts.

Lemma append_assoc (a b c : string) : (a +:+ b) +:+ c = a +:+ b +:+ c.
Proof.
  induction a as [|x a IH]; [reflexivity|].
  rewrite !append_cons. now rewrite IH.
Qed.

Lemma lower_append (a b : string) : lower (a +:+ b) = lower a +:+ lower b.
Proof.
  induction a as [|x a IH]; [reflexivity|].
  rewrite append_cons. cbn [lower]. rewrite append_cons. now rewrite IH.
Qed.

Lemma endswith_append (a suffix : string) : endswith (a +:+ suffix) suffix = true.
Proof.
  induction a as [|x a IH].
  - rewrite append_nil.
    destruct suffix; cbn [endswith]; now rewrite String.eqb_refl.
  - rewrite append_cons. cbn [endswith]. rewrite IH. apply orb_true_r.
Qed.

Lemma endswith_last_char (s suffix : string) (c : ascii) :
  endswith s suffix = true -> last_char suffix = Some c -> last_char s = Some c.
Proof.
  induction s as [|a r IH]; intros H Hc.
  - destruct suffix; [discriminate|].
    simpl in H. discriminate.
  - cbn [endswith] in H. apply orb_true_iff in H as [H|H].
    + apply String.eqb_eq in H. now rewrite H.
    + specialize (IH H Hc). cbn [last_char].
      destruct r; [discriminate | exact IH].
Qed.

Lemma is_image_file_not_json (f a : string) :
  is_image_file f = true -> f <> a +:+ ".json".
Proof.
  intros Himg ->.
  assert (last_char (lower (a +:+ ".json")) = Some "n"%char) as Hn.
  { apply endswith_last_char with (suffix := ".json"); [|reflexivity].
    rewrite lower_append. apply endswith_append. }
  unfold is_image_file, allowed_extensions in Himg. cbn [existsb] in Himg.
  repeat (apply orb_true_iff in Himg as [Himg|Himg]);
    try discriminate;
    (eapply endswith_last_char in Himg; [|reflexivity]);
    rewrite Hn in Himg; discriminate.
Qed.

Lemma basename_suffix (p : string) : exists a, p = a +:+ basename p.
Proof.
  unfold basename. destruct (rfind sep p) as [i|].
  - exists (take (S i) p). symmetry. apply take_drop.
  - now exists "".
Qed.

Lemma basename_join_input (f : string) :
  basename (join INPUT_FOLDER f) = basename f.
Proof.
  unfold join. destruct (startswith_sep f); [reflexivity|].
  cbn [String.eqb Ascii.eqb Bool.eqb orb INPUT_FOLDER endswith_sep].
  unfold INPUT_FOLDER, basename. rewrite !append_cons, append_nil.
  simpl. now destruct (rfind sep f).
Qed.

(** A discovered file is not named [*.json]. *)
Lemma discovered_not_json (f : string) :
  is_image_file f = true ->
  snd (splitext (basename (join INPUT_FOLDER f))) <> ".json".
Proof.
  intros Himg Hext. rewrite basename_join_input in Hext.
  destruct (basename_suffix f) as [a Ha].
  rewrite <- (splitext_app (basename f)), Hext, <- append_assoc in Ha.
  exact (is_image_file_not_json f _ Himg Ha).
Qed.

(** A path into the input folder is not the place of its own copy. *)
Lemma discovered_not_copy (f : string) :
  join INPUT_FOLDER f <> image_copy_path (join INPUT_FOLDER f).
Proof.
  rewrite image_copy_path_eq. unfold join.
  destruct f as [|c f]; [discriminate|].
  cbn [startswith_sep].
  destruct (Ascii.eqb_spec c sep) as [->|_]; discriminate.
Qed.

(** For a discovered file, [processed] needs no more than the run
    itself. *)
Lemma processed_discovered (env : Env) (f prediction_url : string)
    (headers : list (string * header)) (font : Font) (w w' : World)
    (data : list byte) (resp : Response) :
  is_image_file f = true ->
  fs w !! join INPUT_FOLDER f = Some (File data) ->
  http env (requests_sent w)
    (PostFiles prediction_url headers "image" (basename (join INPUT_FOLDER f))
       "image/jpeg" data) = inr resp ->
  status_code resp = 201 ->
  (forall es, fs w !! image_copy_path (join INPUT_FOLDER f) <> Some (Dir es)) ->
  process_image env (join INPUT_FOLDER f) prediction_url headers font w = (Ok tt, w') ->
  processed env (join INPUT_FOLDER f) prediction_url headers font w w' data resp.
Proof.
  intros Himg Hin Hhttp H201 Hcopy Hrun. unfold processed.
  auto 10 using discovered_not_json.
Qed.

End discovered.

(** ** The scenario of one image and one detection

    [main] on a folder with [a.jpg], answered with one record
    [{x: 10, y: 10, w: 50, h: 50, class_name: "cat", confidence: 0.875}]:
    the box is drawn from (10, 10) to (60, 60) in the first palette colour,
    the label above it, and the three files are written, the copy with
    the bytes of the original. *)
Example scenario_run :
  fst (main demo_env scenario) = Ok tt /\
  stdout (snd (main demo_env scenario)) =
    [ PrintLoggingIn; PrintLoginSuccessful; PrintFontWarning;
      PrintProcessing "input_images/a.jpg"; PrintReceived 1 "a.jpg";
      PrintImageInfo (JList []);
      PrintSavedPreview "labelme_output/a_prediction.jpg";
      PrintSavedJson "labelme_output/a.json";
      PrintCopied "labelme_output/a.jpg" ] /\
  class_colors (snd (main demo_env scenario)) = [(py.KStr "cat", (255, 0, 0))] /\
  fs (snd (main demo_env scenario)) !! "labelme_output/a.jpg"
    = Some (File [x01; x02]%byte) /\
  fs (snd (main demo_env scenario)) !! "labelme_output"
    = Some (Dir ["a_prediction.jpg"; "a.json"; "a.jpg"]).
Proof.
  split; [by_evaluation|]. split; [by_evaluation|]. split; [by_evaluation|].
  split; by_evaluation.
Qed.

Example scenario_drawing :
  fst (annotate demo_env DefaultFont
         [detection 10 10 50 50 "cat" 0.875]
         (mkImage [x01; x02]%byte (100, 80) [], []) empty_world)
  = Ok (mkImage [x01; x02]%byte (100, 80)
          [ Rectangle (JInt 10, JInt 10) (JInt 60, JInt 60) (255, 0, 0) 2;
            Text (JInt 10, JInt (-10)) (LabelText (JStr "cat") (JFloat 0.875))
              DefaultFont (255, 0, 0) ],
        [ JDict [ ("label", JStr "cat");
                  ("points", JList [JList [JInt 10; JInt 10];
                                    JList [JInt 60; JInt 60]]);
                  ("group_id", JNull);
                  ("shape_type", JStr "rectangle");
                  ("flags", JDict []) ] ]).
Proof. by_evaluation. Qed.

(** * More of the script *)

(** ** Relations the whole script respects

    A reflexive and transitive relation between states that the script's
    effectful steps respect is respected by [process_image], by the loop
    and by [main], whatever they return or raise. *)

Section script_steps.

Variable R : World -> World -> Prop.
Hypothesis R_refl : forall w, R w w.
Hypothesis R_trans : forall w1 w2 w3, R w1 w2 -> R w2 w3 -> R w1 w3.

Lemma steps_pure {A} (m : M A) : (forall w, snd (m w) = w) -> steps R m.
Proof. intros H w. rewrite H. apply R_refl. Qed.

Lemma steps_ret {A} (a : A) : steps R (ret a).
Proof. now apply steps_pure. Qed.

Lemma steps_raise {A} (e : exn) : steps R (@raise A e).
Proof. now apply steps_pure. Qed.

Lemma steps_lift {A} (r : exn + A) : steps R (lift r).
Proof. apply steps_pure. now destruct r. Qed.

Lemma steps_bind {A B} (m : M A) (k : A -> M B) :
  steps R m -> (forall a, steps R (k a)) -> steps R (bind m k).
Proof.
  intros Hm Hk w. unfold bind. specialize (Hm w).
  destruct (m w) as [[a|e] w1]; cbn [snd] in *; [|exact Hm].
  exact (R_trans _ _ _ Hm (Hk a w1)).
Qed.

Lemma steps_try_except {A} (m h : M A) (handles : exn -> bool) :
  steps R m -> steps R h -> steps R (try_except m handles h).
Proof.
  intros Hm Hh w. unfold try_except. specialize (Hm w).
  destruct (m w) as [[a|e] w1]; cbn [snd] in *; [exact Hm|].
  destruct (handles e); [|exact Hm].
  exact (R_trans _ _ _ Hm (Hh w1)).
Qed.

Lemma steps_for_each {A} (l : list A) (body : A -> M unit) :
  (forall x, steps R (body x)) -> steps R (for_each l body).
Proof.
  intros Hbody. induction l as [|x l IH]; [apply steps_ret|].
  cbn [for_each]. apply steps_bind; auto.
Qed.

Lemma steps_resp_json (resp : Response) : steps R (resp_json resp).
Proof. apply steps_pure. intros w. unfold resp_json. now destruct (body resp). Qed.

Lemma steps_draw (env : Env) (image : Image) (op : draw_op) :
  steps R (draw env image op).
Proof.
  apply steps_pure. intros w. unfold draw. now destruct (pil_draw env image op).
Qed.

Lemma steps_path_exists (path : string) : steps R (path_exists path).
Proof. now apply steps_pure. Qed.

Lemma steps_listdir (path : string) : steps R (listdir path).
Proof.
  apply steps_pure. intros w. unfold listdir. now destruct (fs w !! path) as [[|]|].
Qed.

Lemma steps_read_file (path : string) : steps R (read_file path).
Proof.
  apply steps_pure. intros w. unfold read_file. now destruct (fs w !! path) as [[|]|].
Qed.

Lemma steps_ImageFont_truetype (env : Env) (path : string) (size : Z) :
  steps R (ImageFont_truetype env path size).
Proof.
  apply steps_pure. intros w. unfold ImageFont_truetype.
  now destruct (truetype env path size).
Qed.

(** The steps that change the state. *)
Hypothesis R_print : forall l, steps R (print l).
Hypothesis R_post : forall env req, steps R (requests_post env req).
Hypothesis R_color : forall class_name, steps R (get_color_for_class class_name).
Hypothesis R_save :
  forall env image p, steps R (image_save env image (output_image_path p)).
Hypothesis R_json : forall p data, steps R (write_file (json_filename p) data).
Hypothesis R_copy : forall p, steps R (shutil_copy p (image_copy_path p)).
Hypothesis R_makedirs : steps R (makedirs OUTPUT_FOLDER).

Ltac step :=
  first [ apply steps_ret | apply steps_raise | apply steps_lift
        | apply steps_resp_json | apply steps_draw | apply steps_path_exists
        | apply steps_listdir | apply steps_read_file
        | apply steps_ImageFont_truetype
        | apply R_print | apply R_post | apply R_color | apply R_save
        | apply R_json | apply R_copy | apply R_makedirs
        | apply steps_try_except
        | apply steps_bind; [|intros ?] ].

Lemma steps_annotate_one (env : Env) (font : Font) (pred : json)
    (st : Image * list json) :
  steps R (annotate_one env font pred st).
Proof. unfold annotate_one. repeat step. Qed.

Lemma steps_annotate (env : Env) (font : Font) (preds : list json) :
  forall st, steps R (annotate env font preds st).
Proof.
  induction preds as [|pred rest IH]; intros st; cbn [annotate]; [step|].
  apply steps_bind; [apply steps_annotate_one | exact IH].
Qed.

Lemma steps_save_outputs (env : Env) (p : string) (image : Image)
    (shapes : list json) :
  steps R (save_outputs env p image shapes).
Proof.
  unfold save_outputs, generate_labelme_json. repeat step.
Qed.

Lemma steps_handle_response (env : Env) (p : string) (font : Font)
    (resp : Response) :
  steps R (handle_response env p font resp).
Proof.
  unfold handle_response, Image_open.
  repeat first [apply steps_annotate | apply steps_save_outputs | step].
Qed.

Lemma steps_process_image (env : Env) (p url : string)
    (headers : list (string * header)) (font : Font) :
  steps R (process_image env p url headers font).
Proof.
  unfold process_image, send_image.
  apply steps_bind; [step|intros _].
  apply steps_bind; [repeat step|intros [resp|]]; [|step].
  destruct (negb _); [step | apply steps_handle_response].
Qed.

Lemma steps_process_all (env : Env) (image_files : list string) (url : string)
    (headers : list (string * header)) (font : Font) :
  steps R (process_all env image_files url headers font).
Proof.
  unfold process_all. apply steps_for_each. intros f. apply steps_process_image.
Qed.

Lemma steps_main (env : Env) : steps R (main env).
Proof.
  unfold main. cbv zeta.
  apply steps_bind; [step|intros _].
  apply steps_bind; [step|intros resp].
  destruct (negb _); [step|].
  apply steps_bind; [step|intros j].
  apply steps_bind; [step|intros access_token].
  destruct (negb _); [step|].
  apply steps_bind; [step|intros _].
  apply steps_bind; [step|intros _].
  apply steps_bind; [repeat step|intros font].
  apply steps_bind; [step|intros found].
  destruct (negb _); [step|].
  apply steps_bind; [step|intros names].
  destruct (List.filter is_image_file names) eqn:E; [step|].
  rewrite <- E. apply steps_process_all.
Qed.

End script_steps.

(** ** The registry over a whole run *)

Section registry_run.

Lemma registry_ok_nil : registry_ok [].
Proof. intros i k c H. now rewrite lookup_nil in H. Qed.

Lemma registry_ok_snoc (cc : list (py.key * color)) (k : py.key) :
  registry_ok cc -> registry_ok (cc ++ [(k, palette_at (length cc))]).
Proof.
  intros Hok i k' c Hi.
  destruct (decide (i < length cc)%nat) as [Hlt|Hge].
  - rewrite lookup_app_l in Hi by exact Hlt. now apply (Hok i k').
  - rewrite lookup_app_r in Hi by lia.
    destruct (i - length cc)%nat as [|n] eqn:E; [|now rewrite lookup_cons, lookup_nil in Hi].
    injection Hi as <- <-. replace i with (length cc) by lia.
    apply palette_at_lookup.
Qed.

Lemma lookup_color_Some_lookup (k : py.key) (cc : list (py.key * color)) (c : color) :
  lookup_color k cc = Some c -> exists i k', cc !! i = Some (k', c).
Proof.
  induction cc as [|[k0 c0] cc IH]; [discriminate|]. cbn [lookup_color].
  destruct (py.key_eqb k0 k).
  - intros [= ->]. now exists 0%nat, k0.
  - intros H. destruct (IH H) as (i & k' & Hi). now exists (S i), k'.
Qed.

Lemma lookup_color_prefix (k : py.key) (cc cc' : list (py.key * color)) (c : color) :
  cc `prefix_of` cc' -> lookup_color k cc = Some c -> lookup_color k cc' = Some c.
Proof.
  intros [added ->] H. induction cc as [|[k0 c0] cc IH]; [discriminate|].
  cbn [lookup_color app] in *. destruct (py.key_eqb k0 k); auto.
Qed.

(** What one call does to the state, whatever it is called with. *)
Lemma get_color_for_class_effect (class_name : json) (w : World) :
  match py.hash class_name with
  | inl e => get_color_for_class class_name w = (Raise e, w)
  | inr k =>
      match lookup_color k (class_colors w) with
      | Some c => get_color_for_class class_name w = (Ok c, w)
      | None =>
          get_color_for_class class_name w =
          (Ok (palette_at (length (class_colors w))),
           set_class_colors
             (class_colors w ++ [(k, palette_at (length (class_colors w)))]) w)
      end
  end.
Proof.
  unfold get_color_for_class, bind, lift. destruct (py.hash class_name) as [e|k].
  - reflexivity.
  - cbn [ret]. destruct (lookup_color k (class_colors w)); [reflexivity|].
    now rewrite palette_lookup.
Qed.

Lemma registry_grows_refl (w : World) : registry_grows w w.
Proof. split; [reflexivity | auto]. Qed.

Lemma registry_grows_trans (w1 w2 w3 : World) :
  registry_grows w1 w2 -> registry_grows w2 w3 -> registry_grows w1 w3.
Proof. intros [P1 I1] [P2 I2]. split; [now transitivity (class_colors w2) | auto]. Qed.

Lemma same_registry_grows {A} (m : M A) :
  (forall w, class_colors (snd (m w)) = class_colors w) -> steps registry_grows m.
Proof. intros H w. unfold registry_grows. rewrite H. split; [reflexivity | auto]. Qed.

Lemma get_color_for_class_grows (class_name : json) :
  steps registry_grows (get_color_for_class class_name).
Proof.
  intros w. pose proof (get_color_for_class_effect class_name w) as H.
  destruct (py.hash class_name) as [e|k]; [rewrite H; apply registry_grows_refl|].
  destruct (lookup_color k (class_colors w)); rewrite H;
    [apply registry_grows_refl|].
  split; cbn [snd set_class_colors class_colors].
  - now apply prefix_app_r.
  - apply registry_ok_snoc.
Qed.

Lemma write_file_registry (path : string) (data : list byte) (w : World) :
  class_colors (snd (write_file path data w)) = class_colors w.
Proof.
  unfold write_file.
  destruct (fs w !! path) as [[|]|]; try reflexivity;
    (destruct (String.eqb (parent path) ""); [reflexivity|]);
    now destruct (fs w !! parent path) as [[|]|].
Qed.

Lemma image_save_registry (env : Env) (image : Image) (path : string) (w : World) :
  class_colors (snd (image_save env image path w)) = class_colors w.
Proof.
  unfold image_save.
  destruct (pil_encode env image) as [err|data]; [|apply write_file_registry].
  pose proof (write_file_registry path [] w) as H.
  destruct (write_file path [] w) as [[u|e'] w']; cbn [snd] in *; [|exact H].
  now destruct (bool_decide _).
Qed.

Lemma shutil_copy_registry (src dst : string) (w : World) :
  class_colors (snd (shutil_copy src dst w)) = class_colors w.
Proof.
  unfold shutil_copy. destruct (_ && _); [reflexivity|].
  unfold bind, read_file. destruct (fs w !! src) as [[|]|]; try reflexivity.
  apply write_file_registry.
Qed.

Lemma makedirs_registry (name : string) (w : World) :
  class_colors (snd (makedirs name w)) = class_colors w.
Proof. unfold makedirs. now destruct (fs w !! name) as [[|]|]. Qed.

Lemma requests_post_registry (env : Env) (req : request) (w : World) :
  class_colors (snd (requests_post env req w)) = class_colors w.
Proof. unfold requests_post. now destruct (http env (requests_sent w) req). Qed.

End registry_run.

(** X1.  One call of [get_color_for_class], with any decoded value for a
    class name and in any state: files, output and request count are as
    they were; the registry keeps its entries and gets at most one more,
    at its end, and stays in the palette's order; a [list] or [dict] raises
    [TypeError] and changes nothing; otherwise the colour returned is the
    one the registry now holds for the name, and a palette colour when the
    registry was in the palette's order. *)
Theorem get_color_for_class_appends (class_name : json) (w : World) :
  let r := get_color_for_class class_name w in
  fs (snd r) = fs w /\
  stdout (snd r) = stdout w /\
  requests_sent (snd r) = requests_sent w /\
  (exists added,
     class_colors (snd r) = class_colors w ++ added /\ (length added <= 1)%nat) /\
  (registry_ok (class_colors w) -> registry_ok (class_colors (snd r))) /\
  match py.hash class_name with
  | inl e => e = TypeError /\ r = (Raise TypeError, w)
  | inr k =>
      exists c,
        fst r = Ok c /\
        lookup_color k (class_colors (snd r)) = Some c /\
        (registry_ok (class_colors w) -> c ∈ color_palette)
  end.
Proof.
  cbv zeta.
  pose proof (keeps_get_color_for_class class_name w) as (Hfs & Hout & Hreq).
  pose proof (get_color_for_class_grows class_name w) as [_ Hok].
  pose proof (get_color_for_class_effect class_name w) as H.
  split; [exact Hfs|]. split; [exact Hout|]. split; [exact Hreq|].
  split; [|split; [exact Hok|]].
  - destruct (py.hash class_name) as [e|k];
      [rewrite H; exists []; rewrite app_nil_r; split; [reflexivity | simpl; lia]|].
    destruct (lookup_color k (class_colors w)); rewrite H.
    + exists []. rewrite app_nil_r. split; [reflexivity | simpl; lia].
    + eexists. split; [reflexivity | simpl; lia].
  - destruct (py.hash class_name) as [e|k] eqn:Ehash.
    + assert (e = TypeError) as -> by (destruct class_name; now inversion Ehash).
      now rewrite H.
    + destruct (lookup_color k (class_colors w)) as [c|] eqn:Elook; rewrite H.
      * exists c. split; [reflexivity|]. split; [exact Elook|].
        intros Hreg. destruct (lookup_color_Some_lookup _ _ _ Elook) as (i & k' & Hi).
        eapply list_elem_of_lookup_2, Hreg, Hi.
      * eexists. split; [reflexivity|]. cbn [snd set_class_colors class_colors].
        split.
        -- rewrite lookup_color_app, Elook.
           assert (py.key_eqb k k = true) as ->; [|reflexivity].
           destruct k; cbn [py.key_eqb];
             auto using Z.eqb_refl, String.eqb_refl.
           now apply Leibniz.eqb_spec.
        -- intros _. eapply list_elem_of_lookup_2, palette_at_lookup.
Qed.

(** X2.  Over a whole run of [main], and over one call of [process_image]
    on any path, however it ends: the registry keeps the entries it had, in
    their places, and a registry in the palette's order (entry [i] holds
    palette colour [i mod 12]) is still in that order afterwards. *)
Theorem registry_only_grows (env : Env) (w : World) :
  registry_grows w (snd (main env w)) /\
  forall p url headers font,
    registry_grows w (snd (process_image env p url headers font w)).
Proof.
  assert (Hprint : forall l, steps registry_grows (print l))
    by (intros l; now apply same_registry_grows).
  assert (Hpost : forall e req, steps registry_grows (requests_post e req))
    by (intros e req; apply same_registry_grows; intros; apply requests_post_registry).
  assert (Hsave : forall e image p,
             steps registry_grows (image_save e image (output_image_path p)))
    by (intros e image p; apply same_registry_grows; intros; apply image_save_registry).
  assert (Hjson : forall p data, steps registry_grows (write_file (json_filename p) data))
    by (intros p data; apply same_registry_grows; intros; apply write_file_registry).
  assert (Hcopy : forall p, steps registry_grows (shutil_copy p (image_copy_path p)))
    by (intros p; apply same_registry_grows; intros; apply shutil_copy_registry).
  assert (Hdirs : steps registry_grows (makedirs OUTPUT_FOLDER))
    by (apply same_registry_grows; intros; apply makedirs_registry).
  split.
  - apply (steps_main registry_grows registry_grows_refl registry_grows_trans
             Hprint Hpost get_color_for_class_grows Hsave Hjson Hcopy Hdirs).
  - intros p url headers font.
    apply (steps_process_image registry_grows registry_grows_refl
             registry_grows_trans Hprint Hpost get_color_for_class_grows
             Hsave Hjson Hcopy).
Qed.

(** ** What a run leaves alone *)

Section frame.
Import os_path os_path_facts.

Lemma startswith_append (pre x : string) : startswith (pre +:+ x) pre = true.
Proof.
  induction pre as [|a pre IH]; [reflexivity|].
  rewrite append_cons. cbn [startswith]. now rewrite Ascii.eqb_refl.
Qed.

Lemma startswith_inv (pre s : string) :
  startswith s pre = true -> exists x, s = pre +:+ x.
Proof.
  revert s. induction pre as [|a pre IH]; intros s H.
  - exists s. now rewrite append_nil.
  - destruct s as [|b s]; [discriminate|]. cbn [startswith] in H.
    apply andb_true_iff in H as [Hab H]. apply Ascii.eqb_eq in Hab as ->.
    destruct (IH s H) as [x ->]. exists x. now rewrite append_cons.
Qed.

Lemma startswith_assoc (pre x y : string) :
  startswith ((pre +:+ x) +:+ y) pre = true.
Proof. rewrite append_assoc. apply startswith_append. Qed.

Lemma in_output_folder : in_output OUTPUT_FOLDER = true.
Proof. reflexivity. Qed.

Lemma in_output_below (path : string) :
  startswith path "labelme_output/" = true -> in_output path = true.
Proof. intros H. unfold in_output. rewrite H. apply orb_true_r. Qed.

(** The directory of a path below the output folder is the output folder
    or lies below it. *)
Lemma in_output_parent (path : string) :
  startswith path "labelme_output/" = true -> in_output (parent path) = true.
Proof.
  intros [x ->]%startswith_inv. unfold parent.
  rewrite !append_cons, append_nil. cbn [rfind].
  destruct (rfind sep x) as [j|]; reflexivity.
Qed.

Lemma outside_untouched_refl (w : World) : outside_untouched w w.
Proof. now intros q _. Qed.

Lemma outside_untouched_trans (w1 w2 w3 : World) :
  outside_untouched w1 w2 -> outside_untouched w2 w3 -> outside_untouched w1 w3.
Proof. intros H1 H2 q Hq. now rewrite (H2 q Hq), (H1 q Hq). Qed.

Lemma same_fs_outside {A} (m : M A) :
  (forall w, fs (snd (m w)) = fs w) -> steps outside_untouched m.
Proof. intros H w q _. now rewrite H. Qed.

(** Writing a file changes the file and the listing of its directory,
    and nothing else, however it ends. *)
Lemma write_file_elsewhere (path : string) (data : list byte) (w : World)
    (q : string) :
  q <> path -> q <> parent path ->
  fs (snd (write_file path data w)) !! q = fs w !! q.
Proof.
  intros Hq Hd. unfold write_file.
  destruct (fs w !! path) as [[|]|]; try reflexivity;
    (destruct (String.eqb (parent path) ""); cbn [snd set_fs fs];
     [now rewrite lookup_insert_ne by congruence|]);
    (destruct (fs w !! parent path) as [[|]|]; try reflexivity;
     cbn [snd set_fs fs]; now rewrite !lookup_insert_ne by congruence).
Qed.

Lemma write_file_below (path : string) (data : list byte) :
  startswith path "labelme_output/" = true ->
  steps outside_untouched (write_file path data).
Proof.
  intros H w q Hq. apply write_file_elsewhere.
  - intros ->. now rewrite (in_output_below _ H) in Hq.
  - intros ->. now rewrite (in_output_parent _ H) in Hq.
Qed.

Lemma image_save_below (env : Env) (image : Image) (path : string) :
  startswith path "labelme_output/" = true ->
  steps outside_untouched (image_save env image path).
Proof.
  intros H w. unfold image_save.
  destruct (pil_encode env image) as [err|data]; [|now apply write_file_below].
  pose proof (write_file_below path [] H w) as Hw.
  destruct (write_file path [] w) as [[u|e'] w']; cbn [snd] in *; [|exact Hw].
  destruct (bool_decide _); [exact Hw | apply outside_untouched_refl].
Qed.

Lemma shutil_copy_below (src dst : string) :
  startswith dst "labelme_output/" = true ->
  steps outside_untouched (shutil_copy src dst).
Proof.
  intros H w. unfold shutil_copy.
  match goal with
  | |- context [String.eqb src ?d] => set (dst' := d)
  end.
  assert (Hdst : startswith dst' "labelme_output/" = true).
  { subst dst'. destruct (fs w !! dst) as [[|]|]; try exact H.
    apply startswith_inv in H as [x ->]. unfold join.
    rewrite (sep_free_not_abs _ (basename_sep_free src)).
    destruct (_ || _); apply startswith_assoc. }
  destruct (_ && _); [apply outside_untouched_refl|].
  unfold bind, read_file. destruct (fs w !! src) as [[|]|];
    try apply outside_untouched_refl.
  now apply write_file_below.
Qed.

Lemma makedirs_output : steps outside_untouched (makedirs OUTPUT_FOLDER).
Proof.
  intros w q Hq. unfold makedirs.
  destruct (fs w !! OUTPUT_FOLDER) as [[|]|]; try reflexivity.
  cbn [snd set_fs fs]. apply lookup_insert_ne. intros <-. discriminate.
Qed.

Lemma output_image_path_below (p : string) :
  startswith (output_image_path p) "labelme_output/" = true.
Proof. rewrite output_image_path_eq. apply startswith_append. Qed.

Lemma json_filename_below (p : string) :
  startswith (json_filename p) "labelme_output/" = true.
Proof. rewrite json_filename_eq. apply startswith_append. Qed.

Lemma image_copy_path_below (p : string) :
  startswith (image_copy_path p) "labelme_output/" = true.
Proof. rewrite image_copy_path_eq. apply startswith_append. Qed.

Lemma get_color_for_class_outside (class_name : json) :
  steps outside_untouched (get_color_for_class class_name).
Proof. apply same_fs_outside. intros w. apply keeps_get_color_for_class. Qed.

Lemma requests_post_fs (env : Env) (req : request) (w : World) :
  fs (snd (requests_post env req w)) = fs w.
Proof. unfold requests_post. now destruct (http env (requests_sent w) req). Qed.

End frame.

(** X3.  A run of [main], and a call of [process_image] on any path,
    creates, changes and removes nothing but the output folder and what
    lies below it, however it ends: every other path, the input folder and
    its images among them, holds afterwards what it held before. *)
Theorem only_the_output_folder_is_written (env : Env) (w : World) (q : string) :
  in_output q = false ->
  fs (snd (main env w)) !! q = fs w !! q /\
  forall p url headers font,
    fs (snd (process_image env p url headers font w)) !! q = fs w !! q.
Proof.
  intros Hq.
  assert (Hprint : forall l, steps outside_untouched (print l))
    by (intros l; now apply same_fs_outside).
  assert (Hpost : forall e req, steps outside_untouched (requests_post e req))
    by (intros e req; apply same_fs_outside; intros; apply requests_post_fs).
  assert (Hsave : forall e image p,
             steps outside_untouched (image_save e image (output_image_path p)))
    by (intros e image p; apply image_save_below, output_image_path_below).
  assert (Hjson : forall p data,
             steps outside_untouched (write_file (json_filename p) data))
    by (intros p data; apply write_file_below, json_filename_below).
  assert (Hcopy : forall p,
             steps outside_untouched (shutil_copy p (image_copy_path p)))
    by (intros p; apply shutil_copy_below, image_copy_path_below).
  split.
  - apply (steps_main outside_untouched outside_untouched_refl
             outside_untouched_trans Hprint Hpost get_color_for_class_outside
             Hsave Hjson Hcopy makedirs_output env w q Hq).
  - intros p url headers font.
    apply (steps_process_image outside_untouched outside_untouched_refl
             outside_untouched_trans Hprint Hpost get_color_for_class_outside
             Hsave Hjson Hcopy env p url headers font w q Hq).
Qed.

Lemma only_the_output_folder_is_written_witness :
  fs (snd (main demo_env scenario)) !! "input_images/a.jpg"
  = fs scenario !! "input_images/a.jpg" /\
  forall p url headers font,
    fs (snd (process_image demo_env p url headers font scenario))
      !! "input_images/a.jpg"
    = fs scenario !! "input_images/a.jpg".
Proof.
  exact (only_the_output_folder_is_written demo_env scenario "input_images/a.jpg"
           eq_refl).
Defined.

(** ** What a run keeps *)

Section persisting.

Lemma fs_persists_refl (w : World) : fs_persists w w.
Proof. intros q. destruct (fs w !! q) as [[d|es]|]; eauto. Qed.

Lemma fs_persists_trans (w1 w2 w3 : World) :
  fs_persists w1 w2 -> fs_persists w2 w3 -> fs_persists w1 w3.
Proof.
  intros H1 H2 q. specialize (H1 q). specialize (H2 q).
  destruct (fs w1 !! q) as [[d|es]|]; [| |exact I].
  - destruct H1 as [d' E]. now rewrite E in H2.
  - destruct H1 as (es' & E & Hsub). rewrite E in H2.
    destruct H2 as (es'' & E' & Hsub'). exists es''. split; [exact E'|].
    now transitivity es'.
Qed.

Lemma same_fs_persists {A} (m : M A) :
  (forall w, fs (snd (m w)) = fs w) -> steps fs_persists m.
Proof. intros H w q. rewrite H. destruct (fs w !! q) as [[d|es]|]; eauto. Qed.

Lemma add_entry_subseteq (name : string) (entries : list string) :
  entries ⊆ add_entry name entries.
Proof.
  unfold add_entry. destruct (existsb _ _); [reflexivity|].
  intros x Hx. apply elem_of_app. now left.
Qed.

Lemma write_file_persists (path : string) (data : list byte) :
  steps fs_persists (write_file path data).
Proof.
  intros w q. unfold write_file.
  destruct (fs w !! path) as [[d0|es0]|] eqn:Epath;
    try (cbn [snd]; destruct (fs w !! q) as [[d|es]|]; now eauto);
    (destruct (String.eqb (parent path) "");
     [cbn [snd set_fs fs];
      destruct (decide (q = path)) as [->|Hq];
      [rewrite Epath, ?lookup_insert_eq; now eauto
      |rewrite lookup_insert_ne by congruence;
       destruct (fs w !! q) as [[d|es]|]; now eauto]|]);
    (destruct (fs w !! parent path) as [[d1|es1]|] eqn:Edir;
     try (cbn [snd]; destruct (fs w !! q) as [[d|es]|]; now eauto);
     cbn [snd set_fs fs];
     destruct (decide (q = path)) as [->|Hq];
     [rewrite Epath, ?lookup_insert_eq; now eauto|];
     rewrite lookup_insert_ne by congruence;
     destruct (decide (q = parent path)) as [->|Hd];
     [rewrite Edir, lookup_insert_eq; eexists; split;
      [reflexivity | apply add_entry_subseteq]|];
     rewrite lookup_insert_ne by congruence;
     destruct (fs w !! q) as [[d|es]|]; now eauto).
Qed.

Lemma image_save_persists (env : Env) (image : Image) (path : string) :
  steps fs_persists (image_save env image path).
Proof.
  intros w. unfold image_save.
  destruct (pil_encode env image) as [err|data]; [|apply write_file_persists].
  pose proof (write_file_persists path [] w) as Hw.
  destruct (write_file path [] w) as [[u|e'] w']; cbn [snd] in *; [|exact Hw].
  destruct (bool_decide _); [exact Hw | apply fs_persists_refl].
Qed.

Lemma shutil_copy_persists (src dst : string) :
  steps fs_persists (shutil_copy src dst).
Proof.
  intros w. unfold shutil_copy. destruct (_ && _); [apply fs_persists_refl|].
  unfold bind, read_file. destruct (fs w !! src) as [[|]|];
    try apply fs_persists_refl.
  apply write_file_persists.
Qed.

Lemma makedirs_persists (name : string) : steps fs_persists (makedirs name).
Proof.
  intros w q. unfold makedirs.
  destruct (fs w !! name) as [[|]|] eqn:E;
    try (cbn [snd]; destruct (fs w !! q) as [[d|es]|]; now eauto).
  cbn [snd set_fs fs]. destruct (decide (q = name)) as [->|Hq].
  - now rewrite E.
  - rewrite lookup_insert_ne by congruence.
    destruct (fs w !! q) as [[d|es]|]; now eauto.
Qed.

End persisting.

(** X4.  A run of [main], and a call of [process_image] on any path,
    removes nothing, however it ends: a path that held a file holds a file
    afterwards, and a path that held a directory holds a directory that
    still lists every name it listed. *)
Theorem nothing_is_removed (env : Env) (w : World) :
  fs_persists w (snd (main env w)) /\
  forall p url headers font,
    fs_persists w (snd (process_image env p url headers font w)).
Proof.
  assert (Hprint : forall l, steps fs_persists (print l))
    by (intros l; now apply same_fs_persists).
  assert (Hpost : forall e req, steps fs_persists (requests_post e req))
    by (intros e req; apply same_fs_persists; intros; apply requests_post_fs).
  assert (Hcolor : forall class_name, steps fs_persists (get_color_for_class class_name))
    by (intros c; apply same_fs_persists; intros; apply keeps_get_color_for_class).
  split.
  - apply (steps_main fs_persists fs_persists_refl fs_persists_trans
             Hprint Hpost Hcolor
             (fun e image p => image_save_persists e image _)
             (fun p data => write_file_persists _ data)
             (fun p => shutil_copy_persists p _)
             (makedirs_persists _)).
  - intros p url headers font.
    apply (steps_process_image fs_persists fs_persists_refl fs_persists_trans
             Hprint Hpost Hcolor
             (fun e image p => image_save_persists e image _)
             (fun p data => write_file_persists _ data)
             (fun p => shutil_copy_persists p _)).
Qed.

(** ** Requests *)

Section requests.

Lemma main_run_batch (env : Env) :
  main env =
  (print PrintLoggingIn ;;
   resp <- requests_post env login_request ;;
   if negb (status_code resp =? 200) then
     print (PrintLoginFailed (text resp))
   else
     (j <- resp_json resp ;;
      access_token <- lift (py.get j "access_token" JNull) ;;
      if negb (py.truthy access_token) then print PrintTokenNotFound
      else run_batch env access_token)).
Proof. reflexivity. Qed.














End requests.


(** ** From the login to the batch *)

Section prepare.
Variable env : Env.
Variable w : World.
Variable resp : Response.
Variable j token : json.
Hypothesis Hlogin : http env (requests_sent w) login_request = inr resp.
Hypothesis Hstatus : status_code resp = 200.
Hypothesis Hbody : body resp = Some j.
Hypothesis Htoken : py.get j "access_token" JNull = inr token.
Hypothesis Htruthy : py.truthy token = true.

Lemma main_logged_in :
  main env w =
  run_batch env token
    (mkWorld (fs w) (class_colors w) (stdout w ++ [PrintLoggingIn])
       (S (requests_sent w))).
Proof.
  rewrite main_run_batch. unfold bind at 1, print at 1. cbv beta iota.
  unfold bind at 1, requests_post. cbn [requests_sent fs class_colors stdout].
  rewrite Hlogin, Hstatus. cbn [Z.eqb Pos.eqb negb].
  unfold bind at 1, resp_json. rewrite Hbody. unfold ret at 1. cbv beta iota.
  unfold bind at 1. rewrite Htoken. unfold lift, ret at 1. cbv beta iota.
  now rewrite Htruthy.
Qed.

End prepare.

(** X6.  After a login that gave a token, [main] makes the output folder
    before it looks at the input folder, and a font that does not load
    costs a warning only.  Then: an output folder name taken by a file
    raises [FileExistsError]; no input folder, or no listed name with an
    image extension, is reported and [main] returns, the output folder
    made all the same; an input folder name held by a file raises
    [NotADirectoryError]; otherwise the batch runs on the listed names with
    an image extension, in the listing's order, with the token as bearer
    and the font that loaded. *)
Theorem main_after_login (env : Env) (w : World) (resp : Response)
    (j token : json) :
  http env (requests_sent w) login_request = inr resp ->
  status_code resp = 200 ->
  body resp = Some j ->
  py.get j "access_token" JNull = inr token ->
  py.truthy token = true ->
  main env w =
  match fs w !! OUTPUT_FOLDER with
  | Some (File _) =>
      (Raise FileExistsError,
       mkWorld (fs w) (class_colors w)
         (stdout w ++ [PrintLoggingIn; PrintLoginSuccessful])
         (S (requests_sent w)))
  | _ =>
      match fs w !! INPUT_FOLDER with
      | None => print (PrintNoInputFolder INPUT_FOLDER) (logged_in env w)
      | Some (File _) => (Raise NotADirectoryError, logged_in env w)
      | Some (Dir names) =>
          match List.filter is_image_file names with
          | [] => print (PrintNoImages INPUT_FOLDER) (logged_in env w)
          | image_files =>
              process_all env image_files (BASE_URL +:+ "/predictionbox")
                [("Authorization", Bearer token)] (font_loaded env)
                (logged_in env w)
          end
      end
  end.
Proof.
  intros Hlogin Hstatus Hbody Htoken Htruthy.
  rewrite (main_logged_in env w resp j token Hlogin Hstatus Hbody Htoken Htruthy).
  unfold run_batch. unfold bind at 1, print at 1. cbv beta iota.
  cbn [fs class_colors stdout requests_sent]. rewrite <- app_assoc. cbn [app].
  unfold bind at 1, makedirs. cbn [fs class_colors stdout requests_sent].
  assert (Hrest :
    forall f : gmap string node,
      f !! INPUT_FOLDER = fs w !! INPUT_FOLDER ->
      (font <- try_except (ImageFont_truetype env FONT_PATH 16) is_IOError
                 (print PrintFontWarning ;; ret DefaultFont) ;;
       found <- path_exists INPUT_FOLDER ;;
       if negb found then print (PrintNoInputFolder INPUT_FOLDER)
       else
         (names <- listdir INPUT_FOLDER ;;
          match List.filter is_image_file names with
          | [] => print (PrintNoImages INPUT_FOLDER)
          | _ =>
              process_all env (List.filter is_image_file names)
                (BASE_URL +:+ "/predictionbox")
                [("Authorization", Bearer token)] font
          end))
        (mkWorld f (class_colors w)
           (stdout w ++ [PrintLoggingIn; PrintLoginSuccessful])
           (S (requests_sent w)))
      =
      let w' :=
        mkWorld f (class_colors w)
          (stdout w ++ [PrintLoggingIn; PrintLoginSuccessful]
             ++ (if truetype env FONT_PATH 16 then [] else [PrintFontWarning]))
          (S (requests_sent w)) in
      match fs w !! INPUT_FOLDER with
      | None => print (PrintNoInputFolder INPUT_FOLDER) w'
      | Some (File _) => (Raise NotADirectoryError, w')
      | Some (Dir names) =>
          match List.filter is_image_file names with
          | [] => print (PrintNoImages INPUT_FOLDER) w'
          | image_files =>
              process_all env image_files (BASE_URL +:+ "/predictionbox")
                [("Authorization", Bearer token)] (font_loaded env) w'
          end
      end).
  { intros f Hf. cbv zeta. unfold font_loaded.
    unfold bind at 1, try_except, ImageFont_truetype.
    destruct (truetype env FONT_PATH 16); cbn [raise ret is_IOError].
    - rewrite app_nil_r.
      unfold bind at 1, path_exists. cbn [fs]. rewrite Hf.
      destruct (fs w !! INPUT_FOLDER) as [[data|names]|] eqn:E.
      + rewrite bool_decide_eq_true_2 by eauto. cbn [negb].
        unfold bind at 1, listdir. cbn [fs]. now rewrite Hf.
      + rewrite bool_decide_eq_true_2 by eauto. cbn [negb].
        unfold bind at 1, listdir. cbn [fs]. rewrite Hf.
        now destruct (List.filter is_image_file names).
      + rewrite bool_decide_eq_false_2 by (intros [? ?]; discriminate).
        reflexivity.
    - unfold bind, print, ret, path_exists.
      cbn [fs class_colors stdout requests_sent]. rewrite <- app_assoc. cbn [app].
      rewrite Hf.
      destruct (fs w !! INPUT_FOLDER) as [[data|names]|] eqn:E.
      + rewrite bool_decide_eq_true_2 by eauto. cbn [negb].
        unfold listdir. cbn [fs]. now rewrite Hf.
      + rewrite bool_decide_eq_true_2 by eauto. cbn [negb].
        unfold listdir. cbn [fs]. rewrite Hf.
        now destruct (List.filter is_image_file names).
      + rewrite bool_decide_eq_false_2 by (intros [? ?]; discriminate).
        reflexivity. }
  unfold logged_in.
  destruct (fs w !! OUTPUT_FOLDER) as [[data|entries]|] eqn:Eout.
  - reflexivity.
  - unfold set_fs. now rewrite (Hrest (fs w) eq_refl).
  - unfold set_fs. cbn [fs class_colors stdout requests_sent].
    rewrite (Hrest (<[OUTPUT_FOLDER := Dir []]> (fs w))); [reflexivity|].
    now apply lookup_insert_ne.
Qed.

Lemma main_after_login_witness :
  main demo_env scenario =
  process_all demo_env ["a.jpg"] "/predictionbox" demo_headers DefaultFont
    (logged_in demo_env scenario).
Proof.
  rewrite (main_after_login demo_env scenario
             (mkResponse 200 "" (Some (JDict [("access_token", JStr "secret")])))
             (JDict [("access_token", JStr "secret")]) (JStr "secret"));
    by_evaluation.
Defined.

(** ** What is drawn *)

Section drawing.

Lemma key_eqb_refl (k : py.key) : py.key_eqb k k = true.
Proof.
  destruct k; cbn [py.key_eqb]; auto using Z.eqb_refl, String.eqb_refl.
  now apply Leibniz.eqb_spec.
Qed.

Lemma get_color_for_class_Ok_inv (class_name : json) (c : color) (w w' : World) :
  get_color_for_class class_name w = (Ok c, w') ->
  exists k, py.hash class_name = inr k /\ lookup_color k (class_colors w') = Some c.
Proof.
  intros H. pose proof (get_color_for_class_effect class_name w) as E.
  destruct (py.hash class_name) as [e|k]; [congruence|]. exists k. split; [reflexivity|].
  destruct (lookup_color k (class_colors w)) as [c0|] eqn:Elook;
    rewrite E in H; injection H as <- <-.
  - exact Elook.
  - cbn [set_class_colors class_colors].
    now rewrite lookup_color_app, Elook, key_eqb_refl.
Qed.

Lemma drawn_for_prefix (font : Font) (cc cc' : list (py.key * color))
    (pred : json) (ops : list draw_op) :
  cc `prefix_of` cc' -> drawn_for font cc pred ops -> drawn_for font cc' pred ops.
Proof.
  intros Hpre (x & y & w & h & cn & cf & k & c & xw & yh & y20 & l & H).
  exists x, y, w, h, cn, cf, k, c, xw, yh, y20, l.
  destruct H as (? & ? & ? & ? & ? & ? & ? & Hc & ?).
  eauto 12 using lookup_color_prefix.
Qed.

Lemma annotate_one_drawn (env : Env) (font : Font) (pred : json)
    (st st' : Image * list json) (w w' : World) :
  annotate_one env font pred st w = (Ok st', w') ->
  exists ops,
    drawn_for font (class_colors w') pred ops /\
    im_drawn (fst st') = im_drawn (fst st) ++ ops.
Proof.
  unfold annotate_one. intros H.
  repeat match type of H with
         | bind _ _ _ = _ => apply bind_Ok_inv in H as (? & ? & ? & H)
         end.
  repeat match goal with
         | E : lift _ _ = (Ok _, _) |- _ => apply lift_Ok_inv in E as [E ->]
         | E : draw _ _ _ _ = (Ok _, _) |- _ =>
             apply draw_Ok_inv in E as (_ & -> & ->)
         end.
  match goal with
  | E : get_color_for_class _ _ = (Ok _, _) |- _ =>
      apply get_color_for_class_Ok_inv in E as (k & Ehash & Elook)
  end.
  repeat match goal with
         | H1 : ?t = inr ?a, H2 : ?t = inr ?b |- _ =>
             assert (b = a) as -> by congruence; clear H2
         end.
  injection H as <- <-. cbn [fst im_drawn]. eexists. split.
  - unfold drawn_for. do 12 eexists.
    repeat (split; [eassumption|]). reflexivity.
  - now rewrite <- app_assoc.
Qed.

Lemma annotate_registry_prefix (env : Env) (font : Font) (preds : list json)
    (st : Image * list json) (w : World) :
  class_colors w `prefix_of` class_colors (snd (annotate env font preds st w)).
Proof.
  apply (steps_annotate registry_grows registry_grows_refl registry_grows_trans
           get_color_for_class_grows env font preds st w).
Qed.

End drawing.

(** X7.  When the loop of lines 95-119 gets through its records, it has
    made two drawing calls for each record, in the records' order and
    after whatever was drawn before: the rectangle from [(x, y)] to
    [(x + w, y + h)] with width 2, then the label at [(x, y - 20)] in the
    font given, both in the colour the registry holds for the record's
    class name when the loop ends, and in any later state of a registry
    that only grows; nothing else is drawn. *)
Theorem annotate_draws_two_per_record (env : Env) (font : Font)
    (preds : list json) :
  forall st st' w w',
    annotate env font preds st w = (Ok st', w') ->
    exists opss,
      im_drawn (fst st') = im_drawn (fst st) ++ concat opss /\
      forall later,
        class_colors w' `prefix_of` later ->
        Forall2 (drawn_for font later) preds opss.
Proof.
  induction preds as [|pred rest IH]; intros st st' w w' H; cbn [annotate] in H.
  - injection H as <- <-. exists []. split; [now rewrite app_nil_r|].
    constructor.
  - apply bind_Ok_inv in H as (st1 & w1 & Hone & H).
    apply annotate_one_drawn in Hone as (ops & Hops & E1).
    pose proof (annotate_registry_prefix env font rest st1 w1) as Hpre.
    rewrite H in Hpre. cbn [snd] in Hpre.
    apply IH in H as (opss & E2 & Hopss).
    exists (ops :: opss). split.
    + rewrite E2, E1. cbn [concat]. now rewrite <- app_assoc.
    + intros later Hlater. constructor; [|now apply Hopss].
      apply (drawn_for_prefix _ (class_colors w1)); [|exact Hops].
      now transitivity (class_colors w').
Qed.

Lemma annotate_draws_two_per_record_witness :
  exists opss,
    [ Rectangle (JInt 10, JInt 10) (JInt 60, JInt 60) (255, 0, 0) 2;
      Text (JInt 10, JInt (-10)) (LabelText (JStr "cat") (JFloat 0.875))
        DefaultFont (255, 0, 0) ]
    = [] ++ concat opss /\
    forall later,
      [(py.KStr "cat", (255, 0, 0))] `prefix_of` later ->
      Forall2 (drawn_for DefaultFont later) [detection 10 10 50 50 "cat" 0.875] opss.
Proof.
  apply (annotate_draws_two_per_record demo_env DefaultFont
           [detection 10 10 50 50 "cat" 0.875]
           (mkImage [x01; x02]%byte (100, 80) [], [])
           (mkImage [x01; x02]%byte (100, 80)
              [ Rectangle (JInt 10, JInt 10) (JInt 60, JInt 60) (255, 0, 0) 2;
                Text (JInt 10, JInt (-10)) (LabelText (JStr "cat") (JFloat 0.875))
                  DefaultFont (255, 0, 0) ],
            [ shape_record (JStr "cat") (JInt 10) (JInt 10) (JInt 60) (JInt 60) ])
           empty_world
           (mkWorld ∅ [(py.KStr "cat", (255, 0, 0))] [] 0)).
  by_evaluation.
Defined.

(** ** Which names are images *)

Section extensions.
Import os_path_facts.

Lemma endswith_inv (s suffix : string) :
  endswith s suffix = true -> exists a, s = a +:+ suffix.
Proof.
  induction s as [|c r IH]; cbn [endswith]; intros H.
  - apply orb_true_iff in H as [H|H]; [|discriminate].
    apply String.eqb_eq in H as <-. now exists "".
  - apply orb_true_iff in H as [H|H].
    + apply String.eqb_eq in H as <-. now exists "".
    + destruct (IH H) as [a ->]. exists (String c a). now rewrite append_cons.
Qed.

Lemma lower_split (a b : string) :
  forall f, lower f = a +:+ b ->
            exists a' b', f = a' +:+ b' /\ lower a' = a /\ lower b' = b.
Proof.
  induction a as [|c a IH]; intros f H.
  - exists "", f. now rewrite append_nil in *.
  - rewrite append_cons in H. destruct f as [|x f]; [discriminate|].
    cbn [lower] in H. injection H as Hc H.
    destruct (IH f H) as (a' & b' & -> & <- & <-).
    exists (String x a'), b'. rewrite append_cons. cbn [lower]. now rewrite Hc.
Qed.

End extensions.

(** X8.  The filter of lines 174-175 keeps exactly the names that end in
    [.png], [.jpg] or [.jpeg] in any mix of upper and lower case; the
    ending may be the whole name. *)
Theorem is_image_file_iff (f : string) :
  is_image_file f = true <->
  exists stem ext, f = stem +:+ ext /\ In (lower ext) allowed_extensions.
Proof.
  unfold is_image_file. rewrite existsb_exists. split.
  - intros (x & Hx & Hend). apply endswith_inv in Hend as [a Ha].
    apply lower_split in Ha as (stem & ext & -> & _ & <-). now exists stem, ext.
  - intros (stem & ext & -> & Hext). exists (lower ext). split; [exact Hext|].
    rewrite lower_append. apply endswith_append.
Qed.

(** X9.  A login that does not come back as a JSON object ends [main]
    with an exception, and nothing is caught: the exception [requests.post]
    raises, [JSONDecodeError] for a 200 answer whose body is not JSON, and
    [AttributeError] for a 200 answer whose JSON is not an object.  In each
    case only the login line was printed, the login was the only request
    and no file was touched. *)
Theorem login_crashes (env : Env) (w : World) :
  let w' := mkWorld (fs w) (class_colors w) (stdout w ++ [PrintLoggingIn])
              (S (requests_sent w)) in
  (forall e,
     http env (requests_sent w) login_request = inl e ->
     main env w = (Raise e, w')) /\
  (forall resp,
     http env (requests_sent w) login_request = inr resp ->
     status_code resp = 200 ->
     body resp = None ->
     main env w = (Raise JSONDecodeError, w')) /\
  (forall resp j,
     http env (requests_sent w) login_request = inr resp ->
     status_code resp = 200 ->
     body resp = Some j ->
     (forall d, j <> JDict d) ->
     main env w = (Raise AttributeError, w')).
Proof.
  cbv zeta. split; [|split].
  - intros e Hlogin. rewrite main_run_batch.
    unfold bind at 1, print at 1. cbv beta iota.
    unfold bind at 1, requests_post. cbn [requests_sent fs class_colors stdout].
    now rewrite Hlogin.
  - intros resp Hlogin Hstatus Hbody. rewrite main_run_batch.
    unfold bind at 1, print at 1. cbv beta iota.
    unfold bind at 1, requests_post. cbn [requests_sent fs class_colors stdout].
    rewrite Hlogin, Hstatus. cbn [Z.eqb Pos.eqb negb].
    unfold bind at 1, resp_json. now rewrite Hbody.
  - intros resp j Hlogin Hstatus Hbody Hobj. rewrite main_run_batch.
    unfold bind at 1, print at 1. cbv beta iota.
    unfold bind at 1, requests_post. cbn [requests_sent fs class_colors stdout].
    rewrite Hlogin, Hstatus. cbn [Z.eqb Pos.eqb negb].
    unfold bind at 1, resp_json. rewrite Hbody. unfold ret at 1. cbv beta iota.
    unfold bind at 1.
    assert (py.get j "access_token" JNull = inl AttributeError) as ->;
      [|reflexivity].
    destruct j; try reflexivity. now destruct (Hobj d).
Qed.

Lemma login_crashes_witness :
  main offline scenario =
  (Raise RequestException, mkWorld (fs scenario) [] [PrintLoggingIn] 1).
Proof.
  exact (proj1 (login_crashes offline scenario) RequestException eq_refl).
Defined.

(** X10.  What the [try] of lines 73-79 lets through.  A path that holds
    a directory raises [IsADirectoryError] before any request is sent.  An
    exception of [requests.post] leaves [process_image] as it is, unless it
    is a [FileNotFoundError]: that one is reported as the image not being
    found, although the image was read, and [process_image] returns.  In
    all three cases no file is touched. *)
Theorem upload_failures (env : Env) (image_path prediction_url : string)
    (headers : list (string * header)) (font : Font) (w : World) :
  let announced n :=
    mkWorld (fs w) (class_colors w) (stdout w ++ [PrintProcessing image_path]) n in
  (forall entries,
     fs w !! image_path = Some (Dir entries) ->
     process_image env image_path prediction_url headers font w =
     (Raise IsADirectoryError, announced (requests_sent w))) /\
  (forall data e,
     fs w !! image_path = Some (File data) ->
     http env (requests_sent w)
       (PostFiles prediction_url headers "image" (os_path.basename image_path)
          "image/jpeg" data) = inl e ->
     process_image env image_path prediction_url headers font w =
     if is_FileNotFoundError e
     then (Ok tt,
           mkWorld (fs w) (class_colors w)
             (stdout w ++ [PrintProcessing image_path; PrintImageNotFound image_path])
             (S (requests_sent w)))
     else (Raise e, announced (S (requests_sent w)))).
Proof.
  cbv zeta. split.
  - intros entries Hin.
    unfold process_image, bind at 1, print at 1, bind at 1, send_image, try_except,
      bind at 1.
    unfold read_file at 1. cbn [fs]. now rewrite Hin.
  - intros data e Hin Hhttp.
    unfold process_image, bind at 1, print at 1, bind at 1, send_image, try_except,
      bind at 1.
    cbn [fst snd]. unfold read_file at 1. cbn [fs]. rewrite Hin.
    unfold bind at 1, requests_post. cbn [requests_sent fs class_colors stdout].
    rewrite Hhttp. destruct (is_FileNotFoundError e); [|reflexivity].
    cbn. now rewrite <- app_assoc.
Qed.

Lemma upload_failures_witness :
  process_image demo_env "input_images/x.png" "/predictionbox" demo_headers
    DefaultFont directory_listed =
  (Raise IsADirectoryError,
   mkWorld (fs directory_listed) [] [PrintProcessing "input_images/x.png"] 0).
Proof.
  apply (proj1 (upload_failures demo_env "input_images/x.png" "/predictionbox"
                  demo_headers DefaultFont directory_listed) []).
  by_evaluation.
Defined.

(** ** The output stage *)

(** X11.  When the preview cannot be encoded, the output stage of lines
    121-137 stops there with an exception: no annotation is written, no
    copy is made and nothing is printed; only the preview's path and the
    listing of the output folder can differ from before. *)
Theorem failed_preview_leaves_no_annotation (env : Env) (p : string)
    (image : Image) (shapes : list json) (w : World) (e : exn) :
  pil_encode env image = inl e ->
  exists e' w',
    save_outputs env p image shapes w = (Raise e', w') /\
    fs w' !! json_filename p = fs w !! json_filename p /\
    fs w' !! image_copy_path p = fs w !! image_copy_path p /\
    (forall q, q <> output_image_path p -> q <> OUTPUT_FOLDER ->
               fs w' !! q = fs w !! q) /\
    stdout w' = stdout w.
Proof.
  intros Henc.
  assert (Hframe : forall w1,
            (w1 = w \/ w1 = snd (write_file (output_image_path p) [] w)) ->
            (forall q, q <> output_image_path p -> q <> OUTPUT_FOLDER ->
                       fs w1 !! q = fs w !! q) /\
            stdout w1 = stdout w).
  { intros w1 [->| ->]; [now split|]. split.
    - intros q Hq Hd. apply write_file_elsewhere; [exact Hq|].
      now rewrite parent_output_image_path.
    - unfold write_file.
      destruct (fs w !! output_image_path p) as [[|]|]; try reflexivity;
        (destruct (String.eqb (parent (output_image_path p)) ""); [reflexivity|]);
        now destruct (fs w !! parent (output_image_path p)) as [[|]|]. }
  assert (exists e' w1,
            image_save env image (output_image_path p) w = (Raise e', w1) /\
            (w1 = w \/ w1 = snd (write_file (output_image_path p) [] w)))
    as (e' & w1 & Hsave & Hw1).
  { unfold image_save. rewrite Henc.
    destruct (write_file (output_image_path p) [] w) as [[u|e0] w0]; cbn [snd].
    - destruct (bool_decide _); eauto.
    - eauto. }
  exists e', w1. destruct (Hframe w1 Hw1) as [Hq Hout].
  split; [unfold save_outputs, bind at 1; now rewrite Hsave|].
  split.
  { apply Hq; [|apply json_filename_neq_folder].
    intros E. now apply (preview_neq_json p). }
  split.
  { apply Hq; [apply copy_neq_preview | apply image_copy_path_neq_folder]. }
  split; [exact Hq | exact Hout].
Qed.

Lemma failed_preview_leaves_no_annotation_witness :
  let p := "input_images/a.jpg" in
  let w := prepared [("a.jpg", [x01; x02]%byte)] in
  exists e' w',
    save_outputs no_encoder p (mkImage [x01; x02]%byte (100, 80) []) [] w
    = (Raise e', w') /\
    fs w' !! json_filename p = fs w !! json_filename p /\
    fs w' !! image_copy_path p = fs w !! image_copy_path p /\
    (forall q, q <> output_image_path p -> q <> OUTPUT_FOLDER ->
               fs w' !! q = fs w !! q) /\
    stdout w' = stdout w.
Proof.
  exact (failed_preview_leaves_no_annotation no_encoder "input_images/a.jpg"
           (mkImage [x01; x02]%byte (100, 80) []) []
           (prepared [("a.jpg", [x01; x02]%byte)]) OSError eq_refl).
Defined.

(** X12.  The default of line 85 stands in for a missing [result] only.
    A [result] that is present but has no length ([null], a number, a
    boolean) raises [TypeError] at [len], and a list whose first item is
    not an object raises [TypeError] at [pred["x"]]; the error leaves
    [process_image] and no file is touched. *)
Theorem result_must_be_a_list_of_objects (env : Env)
    (image_path prediction_url : string) (headers : list (string * header))
    (font : Font) (w : World) (data : list byte) (resp : Response) (j : json) :
  fs w !! image_path = Some (File data) ->
  http env (requests_sent w)
    (PostFiles prediction_url headers "image" (os_path.basename image_path)
       "image/jpeg" data) = inr resp ->
  status_code resp = 201 ->
  body resp = Some j ->
  (forall predictions,
     py.get j "result" (JList []) = inr predictions ->
     match predictions with
     | JNull | JBool _ | JInt _ | JFloat _ => True
     | _ => False
     end ->
     exists w',
       process_image env image_path prediction_url headers font w
       = (Raise TypeError, w') /\
       fs w' = fs w) /\
  (forall pred rest size,
     py.get j "result" (JList []) = inr (JList (pred :: rest)) ->
     (forall d, pred <> JDict d) ->
     pil_decode env data = inr size ->
     exists w',
       process_image env image_path prediction_url headers font w
       = (Raise TypeError, w') /\
       fs w' = fs w).
Proof.
  intros Hin Hhttp H201 Hbody. split.
  - intros predictions Hres Hkind.
    rewrite (process_image_answered env image_path prediction_url headers font
               w data resp Hin Hhttp), H201.
    cbn [Z.eqb Pos.eqb negb].
    unfold handle_response, bind at 1, resp_json. rewrite Hbody.
    unfold ret at 1. cbv beta iota.
    unfold bind at 1. rewrite Hres. unfold lift at 1, ret at 1. cbv beta iota.
    unfold bind at 1.
    assert (py.len predictions = inl TypeError) as ->
      by (destruct predictions; now try destruct Hkind).
    eexists. split; reflexivity.
  - intros pred rest size Hres Hobj Hdec.
    apply (process_image_first_record_raises env image_path prediction_url
             headers font w data resp j pred rest size TypeError
             Hin Hhttp H201 Hbody Hres Hdec).
    intros w1. exists w1. split; [|reflexivity].
    unfold annotate_one, bind at 1.
    assert (py.getitem pred "x" = inl TypeError) as ->; [|reflexivity].
    destruct pred; try reflexivity. now destruct (Hobj d).
Qed.

Lemma result_must_be_a_list_of_objects_witness :
  exists w',
    process_image null_result "input_images/a.jpg" "/predictionbox" demo_headers
      DefaultFont (prepared [("a.jpg", [x01; x02]%byte)])
    = (Raise TypeError, w') /\
    fs w' = fs (prepared [("a.jpg", [x01; x02]%byte)]).
Proof.
  refine (proj1 (result_must_be_a_list_of_objects null_result
                   "input_images/a.jpg" "/predictionbox" demo_headers DefaultFont
                   (prepared [("a.jpg", [x01; x02]%byte)]) [x01; x02]%byte
                   (mkResponse 201 "" (Some (JDict [("result", JNull)])))
                   (JDict [("result", JNull)]) _ _ _ _)
            JNull _ I);
    by_evaluation.
Defined.

(** X13.  The annotation written for a processed image has these seven
    fields in this order: the version ["5.0.1"], empty flags, the shapes,
    the file name of the input without its folder, the input's bytes in
    base64, and the width and height Pillow decoded from the input. *)
Theorem annotation_document_fields (env : Env)
    (image_path prediction_url : string) (headers : list (string * header))
    (font : Font) (w w' : World) (data : list byte) (resp : Response) :
  processed env image_path prediction_url headers font w w' data resp ->
  exists shapes size,
    pil_decode env data = inr size /\
    fs w' !! json_filename image_path =
    Some (File (json_dump env
      (JDict [ ("version", JStr "5.0.1");
               ("flags", JDict []);
               ("shapes", JList shapes);
               ("imagePath", JStr (os_path.basename image_path));
               ("imageData", JStr (base64.b64encode data));
               ("imageWidth", JInt (fst size));
               ("imageHeight", JInt (snd size)) ]))).
Proof.
  intros (Hin & Hhttp & H201 & Hcopy & Hext & Hrun).
  destruct (process_image_done env image_path prediction_url headers font w w'
              data resp Hin Hhttp H201 Hcopy Hrun)
    as (j & predictions & preds & size & image & shapes & w1 & w2 & jpeg & doc
        & _ & _ & _ & Hdec & _ & _ & _ & Hgen & _ & Hjson & _).
  rewrite (generate_labelme_json_found _ _ _ _ data w Hin) in Hgen.
  injection Hgen as <-. exists shapes, size. split; [exact Hdec|].
  now apply Hjson.
Qed.

Lemma annotation_document_fields_witness :
  exists shapes size,
    pil_decode demo_env [x01; x02]%byte = inr size /\
    fs (snd (process_image demo_env "input_images/a.jpg" "/predictionbox"
               demo_headers DefaultFont (prepared [("a.jpg", [x01; x02]%byte)])))
      !! json_filename "input_images/a.jpg" =
    Some (File (json_dump demo_env
      (JDict [ ("version", JStr "5.0.1");
               ("flags", JDict []);
               ("shapes", JList shapes);
               ("imagePath", JStr (os_path.basename "input_images/a.jpg"));
               ("imageData", JStr (base64.b64encode [x01; x02]%byte));
               ("imageWidth", JInt (fst size));
               ("imageHeight", JInt (snd size)) ]))).
Proof.
  exact (annotation_document_fields _ _ _ _ _ _ _ _ _ processed_a_jpg).
Defined.

(** ** When two images share an output *)

Section collisions.
Import os_path os_path_facts.

Lemma length_append (a b : string) :
  String.length (a +:+ b) = (String.length a + String.length b)%nat.
Proof.
  induction a as [|x a IH]; [reflexivity|].
  rewrite append_cons. cbn [String.length]. now rewrite IH.
Qed.

Lemma app_inv_tail (a b suffix : string) :
  a +:+ suffix = b +:+ suffix -> a = b.
Proof.
  revert b. induction a as [|x a IH]; intros [|y b] H.
  - reflexivity.
  - apply (f_equal String.length) in H. rewrite append_nil, length_append in H.
    cbn [String.length] in H. lia.
  - apply (f_equal String.length) in H. rewrite append_nil, length_append in H.
    cbn [String.length] in H. lia.
  - rewrite !append_cons in H. injection H as -> H. f_equal. now apply IH.
Qed.

Lemma last_char_append (a b : string) (c : ascii) :
  last_char b = Some c -> last_char (a +:+ b) = Some c.
Proof.
  intros Hb. induction a as [|x a IH]; [now rewrite append_nil|].
  rewrite append_cons. cbn [last_char].
  destruct (a +:+ b) eqn:E; [cbn in IH; discriminate | exact IH].
Qed.

Lemma preview_not_json (a b : string) :
  a +:+ "_prediction.jpg" <> b +:+ ".json".
Proof.
  intros H. apply (f_equal last_char) in H.
  rewrite (last_char_append a _ "g"%char), (last_char_append b _ "n"%char) in H
    by reflexivity.
  discriminate.
Qed.

End collisions.

(** X14.  Two images with different file names share an output file
    exactly when their names differ in the extension only, or when one is
    named like the other's preview ([<stem>_prediction.jpg]): in the first
    case preview and annotation coincide, in the second the copy of the one
    is the preview of the other.  In every other case the six files are
    six different paths. *)
Theorem outputs_shared_iff (p q : string) :
  is_image_file (os_path.basename p) = true ->
  is_image_file (os_path.basename q) = true ->
  os_path.basename p <> os_path.basename q ->
  (exists a, In a (outputs p) /\ In a (outputs q)) <->
  (base_name p = base_name q \/
   os_path.basename q = base_name p +:+ "_prediction.jpg" \/
   os_path.basename p = base_name q +:+ "_prediction.jpg").
Proof.
  intros Hp Hq Hne. unfold outputs.
  rewrite !output_image_path_eq, !json_filename_eq, !image_copy_path_eq.
  split.
  - intros (a & Ha & Hb). cbn [In] in Ha, Hb.
    destruct Ha as [<-|[<-|[<-|[]]]]; destruct Hb as [Hb|[Hb|[Hb|[]]]];
      apply output_inj in Hb.
    + left. symmetry. now apply app_inv_tail in Hb.
    + symmetry in Hb. now apply preview_not_json in Hb.
    + auto.
    + now apply preview_not_json in Hb.
    + left. symmetry. now apply app_inv_tail in Hb.
    + now apply (is_image_file_not_json _ _ Hq) in Hb.
    + auto.
    + symmetry in Hb. now apply (is_image_file_not_json _ _ Hp) in Hb.
    + now destruct Hne.
  - intros [E|[E|E]].
    + exists ("labelme_output/" +:+ base_name p +:+ "_prediction.jpg").
      cbn [In]. rewrite E. auto.
    + exists ("labelme_output/" +:+ base_name p +:+ "_prediction.jpg").
      cbn [In]. rewrite E. auto.
    + exists ("labelme_output/" +:+ base_name q +:+ "_prediction.jpg").
      cbn [In]. rewrite E. auto.
Qed.

Lemma outputs_shared_iff_witness :
  (exists a, In a (outputs "input_images/a.jpg") /\
             In a (outputs "input_images/a.png")) <->
  (base_name "input_images/a.jpg" = base_name "input_images/a.png" \/
   os_path.basename "input_images/a.png"
   = base_name "input_images/a.jpg" +:+ "_prediction.jpg" \/
   os_path.basename "input_images/a.jpg"
   = base_name "input_images/a.png" +:+ "_prediction.jpg").
Proof.
  apply (outputs_shared_iff "input_images/a.jpg" "input_images/a.png");
    by_evaluation.
Defined.

(** ** All or nothing *)

(** X15.  When [process_image] returns, it has either left every file as
    it was (the image was skipped) or written all three files of the
    image: there is no return with one or two of them.  The image's name
    is assumed not to end in [.json] and the place of its copy not to be a
    directory, as holds for what [main] finds in the input folder of a
    fresh output folder. *)
Theorem process_image_all_or_nothing (env : Env)
    (image_path prediction_url : string) (headers : list (string * header))
    (font : Font) (w w' : World) :
  process_image env image_path prediction_url headers font w = (Ok tt, w') ->
  (forall es, fs w !! image_copy_path image_path <> Some (Dir es)) ->
  snd (os_path.splitext (os_path.basename image_path)) <> ".json" ->
  fs w' = fs w \/
  exists data jpeg doc,
    fs w !! image_path = Some (File data) /\
    fs w' !! output_image_path image_path = Some (File jpeg) /\
    fs w' !! json_filename image_path = Some (File (json_dump env doc)) /\
    fs w' !! image_copy_path image_path = Some (File data).
Proof.
  intros Hrun Hcopy Hext.
  destruct (fs w !! image_path) as [[data|entries]|] eqn:Hin.
  - destruct (http env (requests_sent w)
                (PostFiles prediction_url headers "image"
                   (os_path.basename image_path) "image/jpeg" data))
      as [e|resp] eqn:Hhttp.
    + left. revert Hrun.
      unfold process_image, bind at 1, print at 1, bind at 1, send_image,
        try_except, bind at 1.
      cbn [fst snd]. unfold read_file at 1. cbn [fs]. rewrite Hin.
      unfold bind at 1, requests_post. cbn [requests_sent fs class_colors stdout].
      rewrite Hhttp. destruct (is_FileNotFoundError e); [|discriminate].
      cbn. intros [= <-]. reflexivity.
    + destruct (Z.eqb_spec (status_code resp) 201) as [H201|Hstatus].
      * right.
        destruct (process_image_done env image_path prediction_url headers font
                    w w' data resp Hin Hhttp H201 Hcopy Hrun)
          as (j & predictions & preds & size & image & shapes & w1 & w2 & jpeg
              & doc & _ & _ & _ & _ & _ & _ & _ & _ & Hprev & Hjson & Hcp & _).
        exists data, jpeg, doc. auto.
      * left.
        rewrite (process_image_rejected env image_path prediction_url headers
                   font w data resp Hin Hhttp Hstatus) in Hrun.
        now injection Hrun as <-.
  - exfalso. revert Hrun.
    unfold process_image, bind at 1, print at 1, bind at 1, send_image,
      try_except, bind at 1.
    unfold read_file at 1. cbn [fs]. rewrite Hin. discriminate.
  - left.
    rewrite (process_image_missing env image_path prediction_url headers font
               w Hin) in Hrun.
    now injection Hrun as <-.
Qed.

Lemma process_image_all_or_nothing_witness :
  let p := "input_images/a.jpg" in
  let w := prepared [("a.jpg", [x01; x02]%byte)] in
  let w' := snd (process_image demo_env p "/predictionbox" demo_headers
                   DefaultFont w) in
  fs w' = fs w \/
  exists data jpeg doc,
    fs w !! p = Some (File data) /\
    fs w' !! output_image_path p = Some (File jpeg) /\
    fs w' !! json_filename p = Some (File (json_dump demo_env doc)) /\
    fs w' !! image_copy_path p = Some (File data).
Proof.
  apply (process_image_all_or_nothing demo_env "input_images/a.jpg"
           "/predictionbox" demo_headers DefaultFont
           (prepared [("a.jpg", [x01; x02]%byte)])
           (snd (process_image demo_env "input_images/a.jpg" "/predictionbox"
                   demo_headers DefaultFont
                   (prepared [("a.jpg", [x01; x02]%byte)]))));
    by_evaluation.
Defined.

(** ** The stem of the output names *)

Section stem.
Import os_path os_path_facts.

Lemma lower_char_dot (c : ascii) :
  Ascii.eqb c extsep = Ascii.eqb (lower_char c) extsep.
Proof. destruct c as [[] [] [] [] [] [] [] []]; reflexivity. Qed.

Lemma rfind_dot_lower (s : string) :
  rfind extsep (lower s) = rfind extsep s.
Proof.
  induction s as [|c s IH]; [reflexivity|].
  cbn [lower rfind]. now rewrite IH, <- lower_char_dot.
Qed.

Lemma rfind_app_Some (c : ascii) (a b : string) (i : nat) :
  rfind c b = Some i -> rfind c (a +:+ b) = Some (String.length a + i)%nat.
Proof.
  intros Hb. induction a as [|x a IH]; [now rewrite append_nil|].
  rewrite append_cons. cbn [rfind String.length]. now rewrite IH.
Qed.

Lemma take_append (a b : string) : take (String.length a) (a +:+ b) = a.
Proof.
  induction a as [|x a IH]; [now destruct b|].
  rewrite append_cons. cbn [String.length take]. now rewrite IH.
Qed.

Lemma drop_append (a b : string) : drop (String.length a) (a +:+ b) = b.
Proof.
  induction a as [|x a IH]; [now destruct b|].
  rewrite append_cons. cbn [String.length drop]. exact IH.
Qed.

(** An image extension starts with its only dot. *)
Lemma extension_rfind (ext : string) :
  In (lower ext) allowed_extensions -> rfind extsep ext = Some 0%nat.
Proof.
  intros H. rewrite <- rfind_dot_lower.
  cbn [In allowed_extensions] in H.
  destruct H as [<-|[<-|[<-|[]]]]; reflexivity.
Qed.

Lemma splitext_name (stem ext : string) :
  In (lower ext) allowed_extensions ->
  rfind sep (stem +:+ ext) = None ->
  splitext (stem +:+ ext) =
  if all_dots stem then (stem +:+ ext, "") else (stem, ext).
Proof.
  intros Hext Hsep. unfold splitext. rewrite Hsep.
  rewrite (rfind_app_Some _ stem ext 0 (extension_rfind ext Hext)).
  rewrite Nat.add_0_r, Nat.sub_0_r. cbn [Nat.leb drop andb].
  rewrite take_append, drop_append.
  now destruct (all_dots stem).
Qed.

End stem.

(** X16.  The stem the output files are named after.  For a listed name
    [stem ++ ext] whose [ext] is an image extension in any case, the stem
    is [stem]: the preview is [labelme_output/<stem>_prediction.jpg] and
    the annotation [labelme_output/<stem>.json].  The exception is a
    [stem] that is empty or made of dots only: then the whole name is the
    stem, so [.png] gives [.png_prediction.jpg] and [.png.json]. *)
Theorem output_stem (stem ext : string) :
  In (lower ext) allowed_extensions ->
  os_path.rfind os_path.sep (stem +:+ ext) = None ->
  let image_path := os_path.join INPUT_FOLDER (stem +:+ ext) in
  let name := if os_path.all_dots stem then stem +:+ ext else stem in
  base_name image_path = name /\
  output_image_path image_path = "labelme_output/" +:+ name +:+ "_prediction.jpg" /\
  json_filename image_path = "labelme_output/" +:+ name +:+ ".json" /\
  image_copy_path image_path = "labelme_output/" +:+ stem +:+ ext.
Proof.
  intros Hext Hsep. cbv zeta.
  assert (Hbase : os_path.basename (os_path.join INPUT_FOLDER (stem +:+ ext))
                  = stem +:+ ext).
  { rewrite basename_join_input. unfold os_path.basename. now rewrite Hsep. }
  assert (Hstem : base_name (os_path.join INPUT_FOLDER (stem +:+ ext))
                  = if os_path.all_dots stem then stem +:+ ext else stem).
  { unfold base_name. rewrite Hbase, (splitext_name stem ext Hext Hsep).
    now destruct (os_path.all_dots stem). }
  rewrite output_image_path_eq, json_filename_eq, image_copy_path_eq, Hstem, Hbase.
  auto.
Qed.

Lemma output_stem_witness :
  let image_path := os_path.join INPUT_FOLDER ("a" +:+ ".JPG") in
  base_name image_path = "a" /\
  output_image_path image_path = "labelme_output/" +:+ "a" +:+ "_prediction.jpg" /\
  json_filename image_path = "labelme_output/" +:+ "a" +:+ ".json" /\
  image_copy_path image_path = "labelme_output/" +:+ "a" +:+ ".JPG".
Proof.
  apply (output_stem "a" ".JPG"); [right; left; reflexivity | reflexivity].
Defined.
